(** * mangledotdev (Python): the request/response bridge

    A shallow embedding of [src/Python/mangledotdev.py]: the launch resolver
    [InputManager.__get_command], the caller bridge [InputManager.request]
    with its aggregation of the child's response lines, and the callee
    bridge [OutputManager] ([init], [__write], [output]).

    Conventions of the embedding.
    - Python [str] is [string]; case mapping and whitespace are those of the
      ASCII range.
    - A decoded JSON value (and Python's [None]) is a [json]; a [dict] is an
      association list in insertion order.
    - A raised exception is a [Raise e] result; [e] carries the class and
      the text of [str(e)].
    - What the module gets from its host (the file system, the process
      table, the [json] and [uuid] libraries, the standard streams) is a
      record of functions the definitions take as an argument. *)

From Stdlib Require Import ZArith String Ascii List Bool Lia DecimalString.
From Stdlib Require Import Floats.PrimFloat.
Import ListNotations.

Set Warnings "-register-all".
Local Open Scope list_scope.
Local Open Scope string_scope.

(** ** Python string primitives used by the module *)

Module Py.

Definition between (lo hi : nat) (c : ascii) : bool :=
  let n := nat_of_ascii c in (lo <=? n)%nat && (n <=? hi)%nat.

Definition upper_char (c : ascii) : ascii :=
  if between 97 122 c then ascii_of_nat (nat_of_ascii c - 32) else c.

Definition lower_char (c : ascii) : ascii :=
  if between 65 90 c then ascii_of_nat (nat_of_ascii c + 32) else c.

Fixpoint map_chars (f : ascii -> ascii) (s : string) : string :=
  match s with
  | EmptyString => EmptyString
  | String c r => String (f c) (map_chars f r)
  end.

(** [s.upper()], [s.lower()] *)
Definition upper : string -> string := map_chars upper_char.
Definition lower : string -> string := map_chars lower_char.

(** [s.replace(a, b)] for one-character [a] and [b] *)
Definition replace_char (a b : ascii) : string -> string :=
  map_chars (fun c => if Ascii.eqb c a then b else c).

(** [c.isspace()]: tab, line feed, vertical tab, form feed, carriage return,
    the four separators 28..31 and the space. *)
Definition isspace (c : ascii) : bool :=
  between 9 13 c || between 28 32 c.

Fixpoint lstrip (s : string) : string :=
  match s with
  | String c r => if isspace c then lstrip r else s
  | EmptyString => EmptyString
  end.

Fixpoint rstrip (s : string) : string :=
  match s with
  | EmptyString => EmptyString
  | String c r =>
      match rstrip r with
      | EmptyString => if isspace c then EmptyString else String c EmptyString
      | r' => String c r'
      end
  end.

(** [s.strip()] *)
Definition strip (s : string) : string := rstrip (lstrip s).

(** [s.split(sep)] for a one-character separator: never the empty list. *)
Fixpoint split (sep : ascii) (s : string) : list string :=
  match s with
  | EmptyString => [EmptyString]
  | String c r =>
      if Ascii.eqb c sep then EmptyString :: split sep r
      else match split sep r with
           | h :: t => String c h :: t
           | [] => [String c EmptyString]
           end
  end.

(** [sep.join(l)] *)
Definition join (sep : string) (l : list string) : string := String.concat sep l.

(** [s.startswith(p)] *)
Definition startswith (p s : string) : bool := String.prefix p s.

(** [s.rfind(c)] for a one-character [c]: the last index, or -1. *)
Fixpoint rfind_from (c : ascii) (s : string) (i : Z) (last : Z) : Z :=
  match s with
  | EmptyString => last
  | String d r => rfind_from c r (i + 1) (if Ascii.eqb d c then i else last)
  end.

Definition rfind (c : ascii) (s : string) : Z := rfind_from c s 0 (-1).

(** [s[i:j]] and [s[i:]] for indices within the string *)
Definition slice (s : string) (i j : Z) : string :=
  String.substring (Z.to_nat i) (Z.to_nat (j - i)) s.

Definition slice_from (s : string) (i : Z) : string :=
  slice s i (Z.of_nat (String.length s)).

(** The [while] loop of [genericpath._splitext]: is one of the [n]
    characters from [filenameIndex] on something else than the dot? *)
Fixpoint has_non_dot (p : string) (filenameIndex : Z) (n : nat) : bool :=
  match n with
  | O => false
  | S n' =>
      if negb (String.eqb (slice p filenameIndex (filenameIndex + 1)) ".")
      then true
      else has_non_dot p (filenameIndex + 1) n'
  end.

(** [genericpath._splitext(p, sep, altsep, ".")] *)
Definition _splitext (p : string) (sep : ascii) (altsep : option ascii)
  : string * string :=
  let sepIndex := rfind sep p in
  let sepIndex :=
    match altsep with
    | Some a => Z.max sepIndex (rfind a p)
    | None => sepIndex
    end in
  let dotIndex := rfind "."%char p in
  if (sepIndex <? dotIndex)%Z
     && has_non_dot p (sepIndex + 1) (Z.to_nat (dotIndex - (sepIndex + 1)))
  then (slice p 0 dotIndex, slice_from p dotIndex)
  else (p, EmptyString).

(** [os.path.splitext]: [posixpath] splits on the slash, [ntpath] on the
    backslash and the slash. *)
Definition splitext (nt : bool) (p : string) : string * string :=
  if nt then _splitext p "\"%char (Some "/"%char)
  else _splitext p "/"%char None.

(** [str(n)] for an [int] *)
Definition str_int (n : Z) : string := NilZero.string_of_int (Z.to_int n).

(** [x in l] for a list of strings *)
Definition mem (x : string) (l : list string) : bool :=
  existsb (String.eqb x) l.

End Py.

(** ** Values and exceptions *)

(** A decoded JSON document, which is also how the module's own Python
    values are written: [JNull] is [None]. *)
Inductive json : Type :=
| JNull
| JBool (b : bool)
| JInt (n : Z)
| JFloat (f : float)
| JStr (s : string)
| JArr (l : list json)
| JObj (d : list (string * json)).

Definition dict : Type := list (string * json).

(** Python's truth value of an object *)
Definition truthy (v : json) : bool :=
  match v with
  | JNull => false
  | JBool b => b
  | JInt n => negb (n =? 0)%Z
  | JFloat f => negb (PrimFloat.eqb f 0%float)
  | JStr s => negb (String.eqb s EmptyString)
  | JArr l => match l with [] => false | _ => true end
  | JObj d => match d with [] => false | _ => true end
  end.

Definition is_None (v : json) : bool :=
  match v with JNull => true | _ => false end.

(** [type(v).__name__] *)
Definition type_name (v : json) : string :=
  match v with
  | JNull => "NoneType"
  | JBool _ => "bool"
  | JInt _ => "int"
  | JFloat _ => "float"
  | JStr _ => "str"
  | JArr _ => "list"
  | JObj _ => "dict"
  end.

(** The exception classes the module raises, catches or can be handed by
    its libraries. [JSONDecodeError] and [UnicodeDecodeError] are subclasses
    of [ValueError]; [FileNotFoundError] and [PermissionError] of [OSError];
    [OtherException] is any other subclass of [Exception]. *)
Inductive exn_class : Type :=
| FileNotFoundError
| PermissionError
| ValueError
| JSONDecodeError
| UnicodeDecodeError
| KeyError
| IndexError
| TypeError
| OSError
| OtherException.

Record exn : Type := Exn { exn_cls : exn_class; exn_str : string }.

Inductive result (A : Type) : Type :=
| Ok (a : A)
| Raise (e : exn).
Arguments Ok {A} a.
Arguments Raise {A} e.

Definition bind {A B} (m : result A) (k : A -> result B) : result B :=
  match m with
  | Ok a => k a
  | Raise e => Raise e
  end.

Declare Scope py_scope.
Delimit Scope py_scope with py.
Notation "x <- m ;; k" := (bind m (fun x => k))
  (at level 61, m at next level, right associativity) : py_scope.
Notation "m ;;; k" := (bind m (fun _ => k))
  (at level 61, right associativity) : py_scope.

(** [d.get(k)]: [None] when the key is absent *)
Fixpoint dict_find (d : dict) (k : string) : option json :=
  match d with
  | [] => None
  | (k', v) :: r => if String.eqb k' k then Some v else dict_find r k
  end.

Definition dict_get (d : dict) (k : string) : json :=
  match dict_find d k with
  | Some v => v
  | None => JNull
  end.

(** [d[k]] for a string key: [KeyError(k)], whose text is [repr(k)] *)
Definition dict_getitem (d : dict) (k : string) : result json :=
  match dict_find d k with
  | Some v => Ok v
  | None => Raise (Exn KeyError ("'" ++ k ++ "'"))
  end.

(** [v[k]] for a string key, on any value *)
Definition getitem_str (v : json) (k : string) : result json :=
  match v with
  | JObj d => dict_getitem d k
  | JArr _ => Raise (Exn TypeError "list indices must be integers or slices, not str")
  | JStr _ => Raise (Exn TypeError "string indices must be integers, not 'str'")
  | _ => Raise (Exn TypeError ("'" ++ type_name v ++ "' object is not subscriptable"))
  end.

(** [v[index]] for an [int] index that is not negative *)
Definition getitem_int (v : json) (index : nat) : result json :=
  match v with
  | JArr l =>
      match nth_error l index with
      | Some x => Ok x
      | None => Raise (Exn IndexError "list index out of range")
      end
  | JStr s =>
      match String.get index s with
      | Some c => Ok (JStr (String c EmptyString))
      | None => Raise (Exn IndexError "string index out of range")
      end
  | JObj _ => Raise (Exn KeyError (Py.str_int (Z.of_nat index)))
  | _ => Raise (Exn TypeError ("'" ++ type_name v ++ "' object is not subscriptable"))
  end.

(** [iter(v)]: the items a [for] loop over [v] visits *)
Definition iterate (v : json) : result (list json) :=
  match v with
  | JArr l => Ok l
  | JStr s => Ok (map (fun c => JStr (String c EmptyString)) (list_ascii_of_string s))
  | JObj d => Ok (map (fun kv => JStr (fst kv)) d)
  | _ => Raise (Exn TypeError ("'" ++ type_name v ++ "' object is not iterable"))
  end.

(** [v == s] for a string [s] *)
Definition eq_str (v : json) (s : string) : bool :=
  match v with
  | JStr t => String.eqb t s
  | _ => false
  end.

(** ** The host: file system queries, recorded as they are made *)

Record Host : Type := {
  os_name_nt : bool;                   (* os.name == 'nt' *)
  path_exists : string -> bool;        (* os.path.exists *)
  path_isfile : string -> bool;        (* os.path.isfile *)
  access_X_OK : string -> bool;        (* os.access(_, os.X_OK) *)
  access_R_OK : string -> bool;        (* os.access(_, os.R_OK) *)
  path_isabs : string -> bool          (* os.path.isabs *)
}.

Inductive fs_call : Type :=
| Call_exists (p : string)
| Call_isfile (p : string)
| Call_access_X (p : string)
| Call_access_R (p : string).

(** A computation that may raise and that appends to the log of the file
    system calls made so far. *)
Definition FS (A : Type) : Type := list fs_call -> result A * list fs_call.

Module FSMonad.

Definition ret {A} (a : A) : FS A := fun log => (Ok a, log).

Definition raise {A} (e : exn) : FS A := fun log => (Raise e, log).

Definition bind {A B} (m : FS A) (k : A -> FS B) : FS B :=
  fun log =>
    match m log with
    | (Ok a, log') => k a log'
    | (Raise e, log') => (Raise e, log')
    end.

Definition query (c : fs_call) (answer : bool) : FS bool :=
  fun log => (Ok answer, (log ++ [c])%list).

Definition when (b : bool) (m : FS unit) : FS unit :=
  if b then m else ret tt.

End FSMonad.

Declare Scope fs_scope.
Delimit Scope fs_scope with fs.
Notation "x <- m ;; k" := (FSMonad.bind m (fun x => k))
  (at level 61, m at next level, right associativity) : fs_scope.
Notation "m ;;; k" := (FSMonad.bind m (fun _ => k))
  (at level 61, right associativity) : fs_scope.

Definition os_path_exists (h : Host) (p : string) : FS bool :=
  FSMonad.query (Call_exists p) (path_exists h p).
Definition os_path_isfile (h : Host) (p : string) : FS bool :=
  FSMonad.query (Call_isfile p) (path_isfile h p).
Definition os_access_X (h : Host) (p : string) : FS bool :=
  FSMonad.query (Call_access_X p) (access_X_OK h p).
Definition os_access_R (h : Host) (p : string) : FS bool :=
  FSMonad.query (Call_access_R p) (access_R_OK h p).

(** ** The libraries: [json.dumps], [json.loads] and [str] on values *)

Record Codec : Type := {
  json_dumps : json -> string;
  json_loads : string -> result json;
  py_str : json -> string
}.

(** * class InputManager *)

Module InputManager.

(** ** The launch resolver: [InputManager.__get_command] *)

Definition exts_c : list string := [".c"; ".out"; ".exe"; EmptyString].
Definition exts_cs : list string := [".exe"; ".dll"; EmptyString].
Definition exts_cpp : list string := [".cpp"; ".cc"; ".cxx"; ".out"; ".exe"; EmptyString].
Definition exts_rust : list string := [".rs"; ".exe"; ".out"; EmptyString].
Definition exts_go : list string := [".go"; ".exe"; ".out"; EmptyString].

Definition extension_map : list (string * list string) :=
  [ ("PYTHON", [".py"]);
    ("PY", [".py"]);
    ("JAVASCRIPT", [".js"]);
    ("JS", [".js"]);
    ("NODE", [".js"]);
    ("NODEJS", [".js"]);
    ("RUBY", [".rb"]);
    ("RB", [".rb"]);
    ("C", exts_c);
    ("CS", exts_cs);
    ("CPP", exts_cpp);
    ("C#", exts_cs);
    ("C++", exts_cpp);
    ("CSHARP", exts_cs);
    ("CPLUSPLUS", exts_cpp);
    ("EXE", exts_cpp);
    ("JAR", [".jar"]);
    ("JAVA", [".jar"]);
    ("RUST", exts_rust);
    ("RS", exts_rust);
    ("GO", exts_go);
    ("GOLANG", exts_go) ].

Definition compiled_langs : list string :=
  ["C"; "CS"; "CPP"; "C#"; "C++"; "CSHARP"; "CPLUSPLUS"; "EXE";
   "RUST"; "RS"; "GO"; "GOLANG"].

Definition lang_map (file file_ext : string) : list (string * list string) :=
  let dotnet := if String.eqb file_ext ".dll" then ["dotnet"; file] else [file] in
  let gorun := if String.eqb file_ext ".go" then ["go"; "run"; file] else [file] in
  [ ("PYTHON", ["python"; file]);
    ("PY", ["python"; file]);
    ("JAVASCRIPT", ["node"; file]);
    ("JS", ["node"; file]);
    ("NODE", ["node"; file]);
    ("NODEJS", ["node"; file]);
    ("RUBY", ["ruby"; file]);
    ("RB", ["ruby"; file]);
    ("C", [file]);
    ("CS", dotnet);
    ("CPP", [file]);
    ("C#", dotnet);
    ("C++", [file]);
    ("CSHARP", dotnet);
    ("CPLUSPLUS", [file]);
    ("EXE", [file]);
    ("JAR", ["java"; "-jar"; file]);
    ("JAVA", ["java"; "-jar"; file]);
    ("RUST", [file]);
    ("RS", [file]);
    ("GO", gorun);
    ("GOLANG", gorun) ].

(** [table[k]] guarded by [k in table] *)
Fixpoint table_find {A} (t : list (string * A)) (k : string) : option A :=
  match t with
  | [] => None
  | (k', v) :: r => if String.eqb k' k then Some v else table_find r k
  end.

(** The text of the [ValueError] of the extension check *)
Definition invalid_extension_msg
    (file language : string) (valid_extensions : list string) : string :=
  let expected :=
    Py.join ", "
      (map (fun ext => if truthy (JStr ext) then ext else "(no extension)")
           valid_extensions) in
  "Invalid file '" ++ file ++ "' for language '" ++ language
    ++ "'. Expected: e.g. 'file" ++ expected ++ "'".

(** On Windows the slashes of [file] become backslashes. *)
Definition native_path (h : Host) (file : string) : string :=
  if os_name_nt h then Py.replace_char "/" "\" file else file.

(** [os.path.splitext(file)[1].lower()], of the path as the host writes it *)
Definition file_ext (h : Host) (file : string) : string :=
  Py.lower (snd (Py.splitext (os_name_nt h) (native_path h file))).

Definition get_command (h : Host) (language file : string) : FS (list string) :=
  (let lang_upper := Py.upper language in
   let file_ext := file_ext h file in
   let file := native_path h file in
   (* extension validation, first *)
   match table_find extension_map lang_upper with
   | Some valid_extensions =>
       FSMonad.when (negb (Py.mem file_ext valid_extensions))
         (FSMonad.raise
            (Exn ValueError (invalid_extension_msg file language valid_extensions)))
   | None => FSMonad.ret tt
   end ;;;
   (* file existence *)
   ex <- os_path_exists h file ;;
   FSMonad.when (negb ex)
     (FSMonad.raise (Exn FileNotFoundError ("File not found: " ++ file))) ;;;
   isf <- os_path_isfile h file ;;
   FSMonad.when (negb isf)
     (FSMonad.raise (Exn ValueError ("Path is not a file: " ++ file))) ;;;
   (* permissions *)
   (if Py.mem lang_upper compiled_langs
    then
      x <- os_access_X h file ;;
      FSMonad.when (negb x)
        (FSMonad.raise (Exn PermissionError ("File is not executable: " ++ file)))
    else
      r <- os_access_R h file ;;
      FSMonad.when (negb r)
        (FSMonad.raise (Exn PermissionError ("File is not readable: " ++ file)))) ;;;
   (* ./ in front of a relative executable *)
   let file :=
     if Py.mem lang_upper compiled_langs
        && negb (path_isabs h file) && negb (Py.startswith "./" file)
     then "./" ++ file else file in
   (* the command *)
   match table_find (lang_map file file_ext) lang_upper with
   | None => FSMonad.raise (Exn ValueError ("Unsupported language: " ++ language))
   | Some command => FSMonad.ret command
   end)%fs.

(** ** The caller bridge: [InputManager.request] *)

(** The response dictionary: its six keys are the fields. [isUnique] and the
    entries of [errors] can be taken from a response line, so they are
    values. *)
Record Response : Type := {
  request_status : option bool;
  data : json;
  optionalOutput : bool;
  isUnique : json;
  warnings : list string;
  errors : list json
}.

Definition set_request_status (v : option bool) (r : Response) : Response :=
  {| request_status := v; data := data r; optionalOutput := optionalOutput r;
     isUnique := isUnique r; warnings := warnings r; errors := errors r |}.
Definition set_data (v : json) (r : Response) : Response :=
  {| request_status := request_status r; data := v; optionalOutput := optionalOutput r;
     isUnique := isUnique r; warnings := warnings r; errors := errors r |}.
Definition set_isUnique (v : json) (r : Response) : Response :=
  {| request_status := request_status r; data := data r; optionalOutput := optionalOutput r;
     isUnique := v; warnings := warnings r; errors := errors r |}.
Definition append_warning (v : string) (r : Response) : Response :=
  {| request_status := request_status r; data := data r; optionalOutput := optionalOutput r;
     isUnique := isUnique r; warnings := (warnings r ++ [v])%list; errors := errors r |}.
Definition set_errors (v : list json) (r : Response) : Response :=
  {| request_status := request_status r; data := data r; optionalOutput := optionalOutput r;
     isUnique := isUnique r; warnings := warnings r; errors := v |}.
Definition append_error (v : string) (r : Response) : Response :=
  set_errors (errors r ++ [JStr v])%list r.

(** The [data] argument of [request] is any object: one [json.dumps] can
    write, or one of a type it cannot. *)
Inductive pyobj : Type :=
| Serializable (j : json)
| Unserializable (type_of : string).

(** A finished child: what [communicate] returned and [returncode] *)
Record Completed : Type := {
  stdout_text : string;
  stderr_text : string;
  returncode : Z
}.

(** A spawned child, as [communicate(input=...)] sees it *)
Definition Process : Type := string -> result Completed.

Record World : Type := {
  host : Host;
  uuid4_hex : string;                          (* uuid.uuid4().hex *)
  Popen : list string -> result Process;       (* subprocess.Popen *)
  codec : Codec
}.

(** The warnings and errors of the bridge itself *)
Definition warning_target_script : string :=
  "Warning: these kind of errors result from an error in the targeted script.".
Definition warning_optional_no_output : string :=
  "Warning: the output setting is set to optional, and the targeted program didn't gave any output.".
Definition warning_target_file : string :=
  "Warning: targeted file not found or can't be executed, consider checking file informations and language dependencies.".
Definition error_no_output : string :=
  "Error: OutputManager might not be used or not correctly.".
Definition error_count (received : nat) : string :=
  "Error: Expected 1 output (isUnique=True) but received "
    ++ Py.str_int (Z.of_nat received) ++ ".".

(** [json.dumps(self.__raw_request)] *)
Definition dumps_request (c : Codec) (key : string)
    (optionalOutput isUnique : bool) (data : pyobj) : result string :=
  match data with
  | Serializable j =>
      Ok (json_dumps c
            (JObj [("key", JStr key); ("optionalOutput", JBool optionalOutput);
                   ("isUnique", JBool isUnique); ("data", j)]))
  | Unserializable ty =>
      Raise (Exn TypeError ("Object of type " ++ ty ++ " is not JSON serializable"))
  end.

(** One turn of the loop over the lines of the child's output: the line is
    skipped, dropped, or appended to [self.__response]. *)
Definition collect_line (c : Codec) (key : string)
    (response_lines : list dict) (line : string) : result (list dict) :=
  if negb (truthy (JStr (Py.strip line))) then Ok response_lines
  else
    match json_loads c line with
    | Ok (JObj d) =>
        if eq_str (dict_get d "key") key || is_None (dict_get d "key")
        then Ok (response_lines ++ [d])%list
        else Ok response_lines
    | Ok _ => Ok response_lines
    | Raise e =>
        match exn_cls e with
        | JSONDecodeError => Ok response_lines
        | _ => Raise e
        end
    end.

Fixpoint collect (c : Codec) (key : string)
    (lines : list string) (response_lines : list dict) : result (list dict) :=
  match lines with
  | [] => Ok response_lines
  | line :: rest =>
      bind (collect_line c key response_lines line) (collect c key rest)
  end.

(** The loop that sets [failure] *)
Fixpoint scan_failure (response_lines : list dict) (failure : bool) : result bool :=
  match response_lines with
  | [] => Ok failure
  | i :: rest =>
      (s <- dict_getitem i "request_status" ;;
       scan_failure rest (if negb (truthy s) then true else failure))%py
  end.

(** The inner loop over [enumerate(i["errors"])]: one append per item *)
Fixpoint append_errors (i : dict) (items : list json) (index : nat)
    (errs : list json) : result (list json) :=
  match items with
  | [] => Ok errs
  | _ :: rest =>
      (es <- dict_getitem i "errors" ;;
       e <- getitem_int es index ;;
       append_errors i rest (S index) (errs ++ [e])%list)%py
  end.

Fixpoint fold_errors (response_lines : list dict) (errs : list json)
  : result (list json) :=
  match response_lines with
  | [] => Ok errs
  | i :: rest =>
      (es <- dict_getitem i "errors" ;;
       items <- iterate es ;;
       errs' <- append_errors i items 0 errs ;;
       fold_errors rest errs')%py
  end.

Fixpoint fold_data (response_lines : list dict) (data_list : list json)
  : result (list json) :=
  match response_lines with
  | [] => Ok data_list
  | i :: rest =>
      (d <- dict_getitem i "data" ;;
       fold_data rest (data_list ++ [d])%list)%py
  end.

(** From [if len(self.__response) != 0:] to the end of the [try] block *)
Definition aggregate (response : Response) (optionalOutput : bool)
    (response_lines : list dict) : result Response :=
  match response_lines with
  | first :: _ =>
      (failure <- scan_failure response_lines false ;;
       let response :=
         if negb failure then set_request_status (Some true) response
         else set_request_status (Some false) response in
       u <- dict_getitem first "isUnique" ;;
       let response := set_isUnique u response in
       errs <- fold_errors response_lines (errors response) ;;
       let response := set_errors errs response in
       data_list <- fold_data response_lines [] ;;
       if truthy (isUnique response) then
         if (List.length data_list =? 1)%nat
         then Ok (set_data (nth 0 data_list JNull) response)
         else Ok (append_error (error_count (List.length data_list))
                    (set_data JNull (set_request_status (Some false) response)))
       else Ok (set_data (JArr data_list) response))%py
  | [] =>
      if optionalOutput then
        Ok (append_warning warning_optional_no_output
              (set_data JNull (set_request_status None response)))
      else
        Ok (append_error error_no_output
              (set_data JNull (set_request_status (Some false) response)))
  end.

(** The branch taken when [returncode != 0] *)
Definition exit_failure (response : Response) (done : Completed) : Response :=
  let response := set_request_status (Some false) response in
  let response :=
    append_error ("Process exited with code " ++ Py.str_int (returncode done)) response in
  let response :=
    if truthy (JStr (Py.strip (stderr_text done)))
    then append_error ("stderr: " ++ Py.strip (stderr_text done)) response
    else response in
  append_warning warning_target_script response.

(** What the first half of the [try] block hands to the second: the
    finished child and, when it exited with 0, the lines kept in
    [self.__response]. *)
Inductive Exchange : Type :=
| Exited (done : Completed)
| Accepted (response_lines : list dict).

Definition exchange (w : World) (isUnique optionalOutput : bool) (data : pyobj)
    (language file : string) : result Exchange :=
  (let key := uuid4_hex w in
   command <- fst (get_command (host w) language file []) ;;
   process <- Popen w command ;;
   request <- dumps_request (codec w) key optionalOutput isUnique data ;;
   done <- process request ;;
   if negb (returncode done =? 0)%Z then Ok (Exited done)
   else
     response_lines <-
       collect (codec w) key (Py.split "010"%char (Py.strip (stdout_text done))) [] ;;
     Ok (Accepted response_lines))%py.

Definition initial_response (isUnique optionalOutput : bool) : Response :=
  {| request_status := None; data := JNull; optionalOutput := optionalOutput;
     isUnique := JBool isUnique; warnings := []; errors := [] |}.

(** The [try] block *)
Definition request_body (w : World) (isUnique optionalOutput : bool) (data : pyobj)
    (language file : string) : result Response :=
  (x <- exchange w isUnique optionalOutput data language file ;;
   let response := initial_response isUnique optionalOutput in
   match x with
   | Exited done => Ok (exit_failure response done)
   | Accepted response_lines => aggregate response optionalOutput response_lines
   end)%py.

(** [except (FileNotFoundError, PermissionError, ValueError)]: the three
    classes and their subclasses *)
Definition caught_as_file_error (c : exn_class) : bool :=
  match c with
  | FileNotFoundError | PermissionError | ValueError
  | JSONDecodeError | UnicodeDecodeError => true
  | _ => false
  end.

Definition handle (isUnique optionalOutput : bool) (e : exn) : Response :=
  if caught_as_file_error (exn_cls e) then
    {| request_status := Some false; data := JNull;
       optionalOutput := optionalOutput; isUnique := JBool isUnique;
       warnings := [warning_target_file];
       errors := [JStr ("Error: " ++ exn_str e)] |}
  else
    {| request_status := Some false; data := JNull;
       optionalOutput := optionalOutput; isUnique := JBool isUnique;
       warnings := [];
       errors := [JStr ("Unexpected error: " ++ exn_str e)] |}.

(** The instance: the one public attribute *)
Record Self : Type := { self_response : option Response }.

Definition __init__ : Self := {| self_response := None |}.

Definition request (w : World) (self : Self) (isUnique optionalOutput : bool)
    (data : pyobj) (language file : string) : Self :=
  match request_body w isUnique optionalOutput data language file with
  | Ok response => {| self_response := Some response |}
  | Raise e => {| self_response := Some (handle isUnique optionalOutput e) |}
  end.

Definition get_response (self : Self) : option Response := self_response self.

Definition get_data (self : Self) : json :=
  match self_response self with
  | Some response =>
      match request_status response with
      | Some true => data response
      | _ => JNull
      end
  | None => JNull
  end.

End InputManager.

(** * class OutputManager *)

Module OutputManager.

(** What [sys.stdout] can be bound to: the stream the process was started
    with ([sys.__stdout__]), or an [io.StringIO()] nobody reads. *)
Inductive stream : Type :=
| RealStdout
| StringIO.

(** The class attributes, and what of the process they touch: the binding of
    [sys.stdout], the unread standard input, and the writes that reached the
    real output channel, oldest first. *)
Record State : Type := {
  original_stdout : option stream;     (* __original_stdout *)
  request_text : option string;        (* __request *)
  request : json;                      (* __data *)
  data : json;
  request_status : json;               (* __request_status *)
  optional : json;                     (* __optional *)
  unique_state : json;                 (* __unique_state *)
  init_error : json;                   (* __init_error *)
  errors : list string;                (* __errors *)
  warnings : list string;              (* __warnings *)
  sys_stdout : stream;
  stdin : string;
  channel : list string
}.

(** The class as the interpreter defines it, in a process started with
    [stdin_text] on its standard input *)
Definition class_definition (stdin_text : string) : State :=
  {| original_stdout := None; request_text := None; request := JNull;
     data := JNull; request_status := JNull; optional := JNull;
     unique_state := JNull; init_error := JNull; errors := []; warnings := [];
     sys_stdout := RealStdout; stdin := stdin_text; channel := [] |}.

(** A method: it may raise, and it leaves a state either way. *)
Definition M (A : Type) : Type := State -> result A * State.

Definition ret {A} (a : A) : M A := fun s => (Ok a, s).

Definition bindM {A B} (m : M A) (k : A -> M B) : M B :=
  fun s =>
    match m s with
    | (Ok a, s') => k a s'
    | (Raise e, s') => (Raise e, s')
    end.

Definition lift {A} (r : result A) : M A := fun s => (r, s).

Definition get : M State := fun s => (Ok s, s).

Definition modify (f : State -> State) : M unit := fun s => (Ok tt, f s).

Declare Scope om_scope.
Delimit Scope om_scope with om.
Notation "x <- m ;; k" := (bindM m (fun x => k))
  (at level 61, m at next level, right associativity) : om_scope.
Notation "m ;;; k" := (bindM m (fun _ => k))
  (at level 61, right associativity) : om_scope.

Definition set_original_stdout v s :=
  {| original_stdout := v; request_text := request_text s; request := request s;
     data := data s; request_status := request_status s; optional := optional s;
     unique_state := unique_state s; init_error := init_error s;
     errors := errors s; warnings := warnings s; sys_stdout := sys_stdout s;
     stdin := stdin s; channel := channel s |}.
Definition set_request_text v s :=
  {| original_stdout := original_stdout s; request_text := v; request := request s;
     data := data s; request_status := request_status s; optional := optional s;
     unique_state := unique_state s; init_error := init_error s;
     errors := errors s; warnings := warnings s; sys_stdout := sys_stdout s;
     stdin := stdin s; channel := channel s |}.
Definition set_request v s :=
  {| original_stdout := original_stdout s; request_text := request_text s; request := v;
     data := data s; request_status := request_status s; optional := optional s;
     unique_state := unique_state s; init_error := init_error s;
     errors := errors s; warnings := warnings s; sys_stdout := sys_stdout s;
     stdin := stdin s; channel := channel s |}.
Definition set_data v s :=
  {| original_stdout := original_stdout s; request_text := request_text s;
     request := request s;
     data := v; request_status := request_status s; optional := optional s;
     unique_state := unique_state s; init_error := init_error s;
     errors := errors s; warnings := warnings s; sys_stdout := sys_stdout s;
     stdin := stdin s; channel := channel s |}.
Definition set_request_status v s :=
  {| original_stdout := original_stdout s; request_text := request_text s;
     request := request s;
     data := data s; request_status := v; optional := optional s;
     unique_state := unique_state s; init_error := init_error s;
     errors := errors s; warnings := warnings s; sys_stdout := sys_stdout s;
     stdin := stdin s; channel := channel s |}.
Definition set_optional v s :=
  {| original_stdout := original_stdout s; request_text := request_text s;
     request := request s;
     data := data s; request_status := request_status s; optional := v;
     unique_state := unique_state s; init_error := init_error s;
     errors := errors s; warnings := warnings s; sys_stdout := sys_stdout s;
     stdin := stdin s; channel := channel s |}.
Definition set_unique_state v s :=
  {| original_stdout := original_stdout s; request_text := request_text s;
     request := request s;
     data := data s; request_status := request_status s; optional := optional s;
     unique_state := v; init_error := init_error s;
     errors := errors s; warnings := warnings s; sys_stdout := sys_stdout s;
     stdin := stdin s; channel := channel s |}.
Definition set_init_error v s :=
  {| original_stdout := original_stdout s; request_text := request_text s;
     request := request s;
     data := data s; request_status := request_status s; optional := optional s;
     unique_state := unique_state s; init_error := v;
     errors := errors s; warnings := warnings s; sys_stdout := sys_stdout s;
     stdin := stdin s; channel := channel s |}.
Definition set_errors v s :=
  {| original_stdout := original_stdout s; request_text := request_text s;
     request := request s;
     data := data s; request_status := request_status s; optional := optional s;
     unique_state := unique_state s; init_error := init_error s;
     errors := v; warnings := warnings s; sys_stdout := sys_stdout s;
     stdin := stdin s; channel := channel s |}.
Definition set_warnings v s :=
  {| original_stdout := original_stdout s; request_text := request_text s;
     request := request s;
     data := data s; request_status := request_status s; optional := optional s;
     unique_state := unique_state s; init_error := init_error s;
     errors := errors s; warnings := v; sys_stdout := sys_stdout s;
     stdin := stdin s; channel := channel s |}.
Definition set_sys_stdout v s :=
  {| original_stdout := original_stdout s; request_text := request_text s;
     request := request s;
     data := data s; request_status := request_status s; optional := optional s;
     unique_state := unique_state s; init_error := init_error s;
     errors := errors s; warnings := warnings s; sys_stdout := v;
     stdin := stdin s; channel := channel s |}.
Definition set_stdin v s :=
  {| original_stdout := original_stdout s; request_text := request_text s;
     request := request s;
     data := data s; request_status := request_status s; optional := optional s;
     unique_state := unique_state s; init_error := init_error s;
     errors := errors s; warnings := warnings s; sys_stdout := sys_stdout s;
     stdin := v; channel := channel s |}.
Definition set_channel v s :=
  {| original_stdout := original_stdout s; request_text := request_text s;
     request := request s;
     data := data s; request_status := request_status s; optional := optional s;
     unique_state := unique_state s; init_error := init_error s;
     errors := errors s; warnings := warnings s; sys_stdout := sys_stdout s;
     stdin := stdin s; channel := v |}.

(** [sys.stdout.write(text)]: only a write to the real stream is seen. *)
Definition stdout_write (text : string) : M unit :=
  modify (fun s =>
    match sys_stdout s with
    | RealStdout => set_channel (channel s ++ [text])%list s
    | StringIO => s
    end).

(** [sys.stdin.read()]: all of it, once *)
Definition stdin_read : M string :=
  fun s => (Ok (stdin s), set_stdin EmptyString s).

(** The two lines that bind [sys.stdout] back to the saved stream, or to
    [sys.__stdout__] when none was saved *)
Definition restore_stdout : M unit :=
  modify (fun s =>
    match original_stdout s with
    | Some saved => set_sys_stdout saved s
    | None => set_sys_stdout RealStdout s
    end).

Definition error_not_initialized : string :=
  "Error: OutputManager isn't initialized.".

Definition init (c : Codec) : M unit :=
  (modify (fun s => set_original_stdout (Some (sys_stdout s)) s) ;;;
   modify (set_sys_stdout StringIO) ;;;
   text <- stdin_read ;;
   modify (set_request_text (Some text)) ;;;
   decoded <- lift (json_loads c text) ;;
   modify (set_request decoded) ;;;
   d <- lift (getitem_str decoded "data") ;;
   modify (set_data d) ;;;
   o <- lift (getitem_str decoded "optionalOutput") ;;
   modify (set_optional o) ;;;
   (* the state of a new request *)
   modify (set_errors []) ;;;
   modify (set_warnings []) ;;;
   modify (set_init_error JNull) ;;;
   modify (set_request_status JNull) ;;;
   modify (set_unique_state JNull))%om.

(** The dictionary [__write] serialises, its entries evaluated in order *)
Definition response_line (args _data : json) : M json :=
  (key <- lift (if truthy _data then getitem_str _data "key" else Ok JNull) ;;
   s <- get ;;
   u <- lift (if truthy _data then getitem_str _data "isUnique" else Ok JNull) ;;
   ret (JObj [("key", key);
              ("request_status", request_status s);
              ("data", args);
              ("optionalOutput", optional s);
              ("isUnique", u);
              ("errors", JArr (map JStr (errors s)));
              ("warnings", JArr (map JStr (warnings s)))]))%om.

Definition write (c : Codec) (args _data : json) : M unit :=
  (restore_stdout ;;;
   line <- response_line args _data ;;
   let response := json_dumps c line in
   stdout_write response ;;;
   stdout_write (String "010"%char EmptyString))%om.

Definition output (c : Codec) (val : json) : M unit :=
  (s <- get ;;
   if negb (truthy (request s)) then
     if negb (truthy (init_error s)) then
       restore_stdout ;;;
       modify (set_request_status (JBool false)) ;;;
       modify (fun s => set_errors (errors s ++ [error_not_initialized])%list s) ;;;
       write c JNull (request s) ;;;
       modify (set_init_error (JBool true))
     else ret tt
   else
     (if negb (truthy (unique_state s))
      then
        modify (set_request_status (JBool true)) ;;;
        write c val (request s)
      else
        u <- lift (getitem_str (request s) "isUnique") ;;
        if negb (truthy u) then
          modify (set_request_status (JBool true)) ;;;
          write c val (request s)
        else
          modify (set_request_status (JBool false)) ;;;
          modify (fun s =>
            set_errors
              (errors s ++ [("Error: outputs out of bound (isUnique: "
                               ++ py_str c (unique_state s) ++ ").")%string])%list s) ;;;
          write c val (request s)) ;;;
     u <- lift (getitem_str (request s) "isUnique") ;;
     modify (set_unique_state u) ;;;
     modify (set_sys_stdout StringIO))%om.

(** A run of [output] calls, one per value, stopping at the first that
    raises; the state at the end *)
Fixpoint outputs (c : Codec) (vals : list json) (s : State) : State :=
  match vals with
  | [] => s
  | v :: rest =>
      match output c v s with
      | (Ok _, s') => outputs c rest s'
      | (Raise _, s') => s'
      end
  end.

End OutputManager.

(** * Concrete hosts, for the examples *)

Module Fixture.

Definition dq : string := String "034"%char EmptyString.

(** [json.dumps] on the documents of the examples: [null], booleans,
    integers, strings with nothing to escape, and lists and dictionaries of
    these. (No example holds a float.) *)
Fixpoint dumps (v : json) : string :=
  match v with
  | JNull => "null"
  | JBool true => "true"
  | JBool false => "false"
  | JInt n => Py.str_int n
  | JFloat _ => "NaN"
  | JStr s => dq ++ s ++ dq
  | JArr l =>
      "[" ++ (fix items (l : list json) : string :=
                match l with
                | [] => EmptyString
                | x :: [] => dumps x
                | x :: r => dumps x ++ ", " ++ items r
                end) l ++ "]"
  | JObj d =>
      "{" ++ (fix entries (d : list (string * json)) : string :=
                match d with
                | [] => EmptyString
                | (k, x) :: [] => dq ++ k ++ dq ++ ": " ++ dumps x
                | (k, x) :: r => dq ++ k ++ dq ++ ": " ++ dumps x ++ ", " ++ entries r
                end) d ++ "}"
  end.

(** [json.loads] on the texts that are the [dumps] of one of [documents];
    any other text is not JSON here. *)
Fixpoint loads (documents : list json) (text : string) : result json :=
  match documents with
  | [] => Raise (Exn JSONDecodeError "Expecting value: line 1 column 1 (char 0)")
  | v :: rest => if String.eqb (dumps v) text then Ok v else loads rest text
  end.

(** [str] on [None], booleans, integers and strings *)
Definition str (v : json) : string :=
  match v with
  | JNull => "None"
  | JBool true => "True"
  | JBool false => "False"
  | JStr s => s
  | _ => dumps v
  end.

Definition codec_of (documents : list json) : Codec :=
  {| json_dumps := dumps; json_loads := loads documents; py_str := str |}.

(** A POSIX host on which exactly the paths of [files] are regular files
    that can be read and executed *)
Definition posix (files : list string) : Host :=
  {| os_name_nt := false;
     path_exists := fun p => Py.mem p files;
     path_isfile := fun p => Py.mem p files;
     access_X_OK := fun p => Py.mem p files;
     access_R_OK := fun p => Py.mem p files;
     path_isabs := Py.startswith "/" |}.

(** A child that ignores its input, prints [lines] and exits with [code],
    having written [diagnostics] to its error stream *)
Definition prints (lines : list string) (diagnostics : string) (code : Z)
  : InputManager.Process :=
  fun _ =>
    Ok {| InputManager.stdout_text :=
            String.concat EmptyString
              (map (fun l => l ++ String "010"%char EmptyString) lines);
          InputManager.stderr_text := diagnostics;
          InputManager.returncode := code |}.

(** The world in which every command starts [child], with key [key] *)
Definition world (files : list string) (key : string)
    (child : InputManager.Process) (documents : list json) : InputManager.World :=
  {| InputManager.host := posix files;
     InputManager.uuid4_hex := key;
     InputManager.Popen := fun _ => Ok child;
     InputManager.codec := codec_of documents |}.

(** The line [OutputManager] writes for a request of key [key] *)
Definition line (key : json) (status : json) (value : json) (unique : json)
    (errs : list string) : json :=
  JObj [("key", key); ("request_status", status); ("data", value);
        ("optionalOutput", JBool true); ("isUnique", unique);
        ("errors", JArr (map JStr errs)); ("warnings", JArr [])].

End Fixture.

(** * Notions the statements use *)

Import InputManager.

(** A dictionary that carries what the aggregation reads of a response
    line: a status, a uniqueness flag, a datum and a list of errors. (The
    values are otherwise free: the line a child that never initialised
    writes has a null [isUnique].) *)
Definition is_ResponseLine (i : dict) : bool :=
  match dict_find i "request_status", dict_find i "isUnique",
        dict_find i "data", dict_find i "errors" with
  | Some _, Some _, Some _, Some (JArr _) => true
  | _, _, _, _ => false
  end.

Definition line_failed (i : dict) : bool :=
  negb (truthy (dict_get i "request_status")).

Definition line_errors (i : dict) : list json :=
  match dict_get i "errors" with
  | JArr l => l
  | _ => []
  end.

Definition line_data (i : dict) : json := dict_get i "data".

Definition line_isUnique (i : dict) : json := dict_get i "isUnique".

(** A list, as opposed to a single value *)
Definition is_sequence (v : json) : bool :=
  match v with
  | JArr _ => true
  | _ => false
  end.

(** The languages of the resolver's table: the keys of [lang_map] *)
Definition languages : list string :=
  map fst (lang_map EmptyString EmptyString).

Definition recognized (language : string) : bool :=
  Py.mem (Py.upper language) languages.

(** No request is stored, the fault was not reported yet, and the stream
    saved by a failed [init], if any, is the real one. *)
Definition not_initialized (s : OutputManager.State) : bool :=
  negb (truthy (OutputManager.request s))
  && negb (truthy (OutputManager.init_error s))
  && match OutputManager.original_stdout s with
     | Some OutputManager.StringIO => false
     | _ => true
     end.

(** The response line of the not-initialized fault, written from [s] *)
Definition not_initialized_line (s : OutputManager.State) : json :=
  JObj [("key", JNull);
        ("request_status", JBool false);
        ("data", JNull);
        ("optionalOutput", OutputManager.optional s);
        ("isUnique", JNull);
        ("errors",
         JArr (map JStr (OutputManager.errors s
                           ++ [OutputManager.error_not_initialized])%list));
        ("warnings", JArr (map JStr (OutputManager.warnings s)))].

(** The aggregate of one or more response lines, in closed form *)
Definition aggregate_of (response : Response) (first : dict) (rest : list dict)
  : Response :=
  let lines := first :: rest in
  let errs := (errors response ++ flat_map line_errors lines)%list in
  if truthy (line_isUnique first) then
    match rest with
    | [] =>
        {| request_status := Some (negb (existsb line_failed lines));
           data := line_data first;
           optionalOutput := optionalOutput response;
           isUnique := line_isUnique first;
           warnings := warnings response;
           errors := errs |}
    | _ :: _ =>
        {| request_status := Some false;
           data := JNull;
           optionalOutput := optionalOutput response;
           isUnique := line_isUnique first;
           warnings := warnings response;
           errors := (errs ++ [JStr (error_count (List.length lines))])%list |}
    end
  else
    {| request_status := Some (negb (existsb line_failed lines));
       data := JArr (map line_data lines);
       optionalOutput := optionalOutput response;
       isUnique := line_isUnique first;
       warnings := warnings response;
       errors := errs |}.

(** Two dictionaries with the same four entries the aggregation reads;
    they may differ in any other, [warnings] among them. *)
Definition reads_alike (i j : dict) : Prop :=
  dict_find i "request_status" = dict_find j "request_status"
  /\ dict_find i "isUnique" = dict_find j "isUnique"
  /\ dict_find i "errors" = dict_find j "errors"
  /\ dict_find i "data" = dict_find j "data".

(** The warnings the caller bridge itself can attach to a response *)
Definition bridge_warnings : list (list string) :=
  [ []; [warning_target_script]; [warning_optional_no_output];
    [warning_target_file] ].

(** ** The inputs of the examples *)

Module Scenario.

Definition key : string := "0123456789abcdef0123456789abcdef".

Definition script : string := "worker.py".

(** A child that prints [lines], one response line each, then exits *)
Definition world (lines : list json) (diagnostics : string) (code : Z) : World :=
  Fixture.world [script] key
    (Fixture.prints (map Fixture.dumps lines) diagnostics code) lines.

(** The line [OutputManager.output(value)] writes on a first emission *)
Definition emitted (value : json) (unique : bool) : json :=
  Fixture.line (JStr key) (JBool true) value (JBool unique) [].

Definition emitted_dict (value : json) (unique : bool) : dict :=
  match emitted value unique with
  | JObj d => d
  | _ => []
  end.

(** One emission of the list [[1, 2]] under uniqueness *)
Definition one_list : World :=
  world [emitted (JArr [JInt 1; JInt 2]) true] EmptyString 0.

(** No emission at all *)
Definition silent : World := world [] EmptyString 0.

(** Emissions of 1, 2 and 3 by a callee told [isUnique=false] *)
Definition three : World :=
  world [emitted (JInt 1) false; emitted (JInt 2) false; emitted (JInt 3) false]
    EmptyString 0.

(** One emission whose line says [isUnique=false] *)
Definition one_not_unique : World := world [emitted (JInt 7) false] EmptyString 0.

(** Two emissions whose lines say [isUnique=true], each a success *)
Definition two_unique : World :=
  world [emitted (JInt 1) true; emitted (JInt 2) true] EmptyString 0.

(** A valid response line, then exit status 3 and a message on the error
    stream *)
Definition crashed : World :=
  world [emitted (JInt 1) true] (" boom" ++ String "010"%char EmptyString) 3.

(** A host without any file *)
Definition empty_host : Host := Fixture.posix [].

(** The request the caller bridge writes for a datum with the one entry
    [n = 2] under the default flags, and the codec of the callee that reads
    it *)
Definition request_n2 : json :=
  JObj [("key", JStr key); ("optionalOutput", JBool true);
        ("isUnique", JBool true); ("data", JObj [("n", JInt 2)])].

Definition callee_codec : Codec := Fixture.codec_of [request_n2].

(** A request as the caller writes it, with the flag [unique] *)
Definition request_with_flag (unique : bool) : json :=
  JObj [("key", JStr key); ("optionalOutput", JBool true);
        ("isUnique", JBool unique); ("data", JNull)].

(** A line with the status false and no error, from a child that does not
    use [OutputManager] *)
Definition bare_failure : World :=
  world [Fixture.line (JStr key) (JBool false) JNull (JBool true) []]
    EmptyString 0.

(** A success whose line carries a warning of the callee *)
Definition warned : World :=
  world [JObj [("key", JStr key); ("request_status", JBool true);
               ("data", JInt 4); ("optionalOutput", JBool true);
               ("isUnique", JBool true); ("errors", JArr []);
               ("warnings", JArr [JStr "Warning: slow path taken"])]]
    EmptyString 0.

(** A line that is an empty dictionary *)
Definition empty_dict : World := world [JObj []] EmptyString 0.

(** A host on which the interpreter is not installed: [Popen] raises the
    [FileNotFoundError] of the operating system. *)
Definition no_interpreter : World :=
  {| host := Fixture.posix [script];
     uuid4_hex := key;
     Popen := fun _ =>
       Raise (Exn FileNotFoundError
                "[Errno 2] No such file or directory: 'python'");
     codec := Fixture.codec_of [] |}.

(** The codec of a callee whose input is the text [[1]] *)
Definition list_codec : Codec := Fixture.codec_of [JArr [JInt 1]].

End Scenario.

(** * Notions of the further properties *)

(** ** The resolver *)

(** The languages whose file is run as it is, and must be executable *)
Definition is_compiled (language : string) : bool :=
  Py.mem (Py.upper language) compiled_langs.

(** The permission the resolver asks for *)
Definition access_call (h : Host) (language file : string) : fs_call :=
  if is_compiled language then Call_access_X (native_path h file)
  else Call_access_R (native_path h file).

Definition access_granted (h : Host) (language file : string) : bool :=
  if is_compiled language then access_X_OK h (native_path h file)
  else access_R_OK h (native_path h file).

(** The file system calls of a resolution that goes through all checks *)
Definition resolver_calls (h : Host) (language file : string) : list fs_call :=
  [Call_exists (native_path h file); Call_isfile (native_path h file);
   access_call h language file].

(** The path that is put in the command *)
Definition launch_path (h : Host) (language file : string) : string :=
  if is_compiled language
     && negb (path_isabs h (native_path h file))
     && negb (Py.startswith "./" (native_path h file))
  then "./" ++ native_path h file
  else native_path h file.

(** Does the extension check let the file through? It does for a language
    without an entry in [extension_map]. *)
Definition extension_accepted (h : Host) (language file : string) : bool :=
  match table_find extension_map (Py.upper language) with
  | Some valid_extensions => Py.mem (file_ext h file) valid_extensions
  | None => true
  end.

(** The number of file system calls of a resolution: it stops at the first
    check that fails. *)
Definition checks_made (h : Host) (language file : string) : nat :=
  if negb (extension_accepted h language file) then 0
  else if negb (path_exists h (native_path h file)) then 1
  else if negb (path_isfile h (native_path h file)) then 2
  else 3.

(** ** The caller bridge *)

(** The test on the key of a decoded line *)
Definition key_matches (key : string) (d : dict) : bool :=
  eq_str (dict_get d "key") key || is_None (dict_get d "key").

(** A line the loop over the child's output passes over: it is blank, or
    it is not JSON, or it is not a dictionary, or it has the key of another
    request. *)
Definition ignored (c : Codec) (key : string) (line : string) : bool :=
  if negb (truthy (JStr (Py.strip line))) then true
  else
    match json_loads c line with
    | Ok (JObj d) => negb (key_matches key d)
    | Ok _ => true
    | Raise e =>
        match exn_cls e with
        | JSONDecodeError => true
        | _ => false
        end
    end.

(** ** The failures of a call *)

(** The call got as far as [communicate]: the resolver gave [command],
    [Popen] a child for it, and [json.dumps] the text of the request. *)
Definition spawned (w : World) (u o : bool) (d : pyobj) (language file : string)
    (command : list string) (process : Process) (input : string) : Prop :=
  fst (get_command (host w) language file []) = Ok command
  /\ Popen w command = Ok process
  /\ dumps_request (codec w) (uuid4_hex w) o u d = Ok input.

(** The child exited and [communicate] returned [done]. *)
Definition exited (w : World) (u o : bool) (d : pyobj) (language file : string)
    (done : Completed) : Prop :=
  exists command process input,
    spawned w u o d language file command process input
    /\ process input = Ok done.

(** The lines of what a child printed *)
Definition output_lines (done : Completed) : list string :=
  Py.split "010"%char (Py.strip (stdout_text done)).

(** The child exited with 0 and the loop over its output kept [lines]. *)
Definition kept (w : World) (u o : bool) (d : pyobj) (language file : string)
    (lines : list dict) : Prop :=
  exists done,
    exited w u o d language file done
    /\ returncode done = 0%Z
    /\ collect (codec w) (uuid4_hex w) (output_lines done) [] = Ok lines.

(** A dictionary on which one of the loops of the aggregation raises: it
    has no status, or no datum, or its errors are absent or cannot be gone
    through (they are [None], a boolean, a number, or a dictionary that is
    not empty). *)
Definition unreadable (i : dict) : bool :=
  match dict_find i "request_status", dict_find i "errors", dict_find i "data" with
  | Some _, Some (JArr _), Some _ => false
  | Some _, Some (JStr _), Some _ => false
  | Some _, Some (JObj []), Some _ => false
  | _, _, _ => true
  end.

(** The failures of a call, each stated on what the host does: the
    resolver, [Popen], [json.dumps] or [communicate] raises (the exception
    is then given); the child exits with another status than 0;
    [json.loads] raises something else than a [JSONDecodeError] on a line
    that is not blank; a dictionary kept cannot be read, or the first has no
    flag; no line is kept although the output is required; more than one
    response line is kept under a flag that counts as true. *)
Inductive call_fails (w : World) (u o : bool) (d : pyobj)
    (language file : string) : option exn -> Prop :=
| Resolver_raises (e : exn) :
    fst (get_command (host w) language file []) = Raise e ->
    call_fails w u o d language file (Some e)
| Popen_raises (command : list string) (e : exn) :
    fst (get_command (host w) language file []) = Ok command ->
    Popen w command = Raise e ->
    call_fails w u o d language file (Some e)
| Dumps_raises (command : list string) (process : Process) (e : exn) :
    fst (get_command (host w) language file []) = Ok command ->
    Popen w command = Ok process ->
    dumps_request (codec w) (uuid4_hex w) o u d = Raise e ->
    call_fails w u o d language file (Some e)
| Communicate_raises (command : list string) (process : Process)
    (input : string) (e : exn) :
    spawned w u o d language file command process input ->
    process input = Raise e ->
    call_fails w u o d language file (Some e)
| Exit_not_zero (done : Completed) :
    exited w u o d language file done ->
    returncode done <> 0%Z ->
    call_fails w u o d language file None
| Loads_raises (done : Completed) (line : string) (e : exn) :
    exited w u o d language file done ->
    returncode done = 0%Z ->
    In line (output_lines done) ->
    truthy (JStr (Py.strip line)) = true ->
    json_loads (codec w) line = Raise e ->
    exn_cls e <> JSONDecodeError ->
    call_fails w u o d language file None
| Lines_unreadable (first : dict) (rest : list dict) :
    kept w u o d language file (first :: rest) ->
    existsb unreadable (first :: rest) = true
    \/ dict_find first "isUnique" = None ->
    call_fails w u o d language file None
| Output_missing :
    kept w u o d language file [] ->
    o = false ->
    call_fails w u o d language file None
| Count_mismatch (first second : dict) (rest : list dict) :
    kept w u o d language file (first :: second :: rest) ->
    forallb is_ResponseLine (first :: second :: rest) = true ->
    truthy (line_isUnique first) = true ->
    call_fails w u o d language file None.




(** ** The callee bridge *)

(** A state in which [init] has stored a request with the key [k] and the
    flag [u], and has saved the real stream (or none). *)
Definition ready (s : OutputManager.State) (k u : json) : Prop :=
  exists d,
    OutputManager.request s = JObj d
    /\ dict_find d "key" = Some k
    /\ dict_find d "isUnique" = Some u
    /\ OutputManager.original_stdout s <> Some OutputManager.StringIO.

(** The dictionary of a response line *)
Definition response_of (k status value opt u : json) (errs warns : list string)
  : json :=
  JObj [("key", k); ("request_status", status); ("data", value);
        ("optionalOutput", opt); ("isUnique", u);
        ("errors", JArr (map JStr errs)); ("warnings", JArr (map JStr warns))].

Definition error_out_of_bound (c : Codec) (unique_state : json) : string :=
  "Error: outputs out of bound (isUnique: " ++ py_str c unique_state ++ ").".

(** Is an emission within bounds, given what [__unique_state] holds? *)
Definition permitted (unique_state u : json) : bool :=
  negb (truthy unique_state) || negb (truthy u).

(** What a run of emissions writes, from the accumulated errors [errs] and
    the value [unique_state] of [__unique_state] *)
Fixpoint emissions (c : Codec) (k opt u : json) (warns : list string)
    (errs : list string) (unique_state : json) (vals : list json) : list string :=
  match vals with
  | [] => []
  | v :: rest =>
      let ok := permitted unique_state u in
      let errs' :=
        if ok then errs else (errs ++ [error_out_of_bound c unique_state])%list in
      json_dumps c (response_of k (JBool ok) v opt u errs' warns)
      :: String "010"%char EmptyString
      :: emissions c k opt u warns errs' u rest
  end.

(** ** Caller and callee together *)

(** A text that makes one line of output: it does not start or end with
    white space, is not empty, and holds no line feed. *)
Definition one_line (t : string) : bool :=
  match t with
  | EmptyString => false
  | String a _ => negb (Py.isspace a)
  end
  && String.eqb (Py.rstrip t) t
  && negb (existsb (Ascii.eqb "010"%char) (list_ascii_of_string t)).

(** The request dictionary the caller serialises *)
Definition request_of (key : string) (o u : bool) (j : json) : json :=
  JObj [("key", JStr key); ("optionalOutput", JBool o);
        ("isUnique", JBool u); ("data", j)].

(** The methods called one after the other, the first exception ending the
    run *)
Fixpoint emit_all (c : Codec) (vals : list json) : OutputManager.M unit :=
  match vals with
  | [] => OutputManager.ret tt
  | v :: rest =>
      OutputManager.bindM (OutputManager.output c v) (fun _ => emit_all c rest)
  end.

(** The process of a target script that calls [OutputManager.init()] and
    then [OutputManager.output(v)] for each [v] of [vals]: its standard
    output is what reached the channel; it exits with 0, or with 1 and the
    text of the exception on its error stream when a call raised. *)
Definition target_script (c : Codec) (vals : list json) : Process :=
  fun input =>
    let run :=
      OutputManager.bindM (OutputManager.init c) (fun _ => emit_all c vals) in
    match run (OutputManager.class_definition input) with
    | (Ok _, s) =>
        Ok {| stdout_text := String.concat EmptyString (OutputManager.channel s);
              stderr_text := EmptyString;
              returncode := 0 |}
    | (Raise e, s) =>
        Ok {| stdout_text := String.concat EmptyString (OutputManager.channel s);
              stderr_text := exn_str e;
              returncode := 1 |}
    end.

(** The codec agrees with itself on [v]: what it writes is one line, and it
    reads it back. *)
Definition round_trips (c : Codec) (v : json) : Prop :=
  json_loads c (json_dumps c v) = Ok v /\ one_line (json_dumps c v) = true.

(** The entries of the line of an emission within bounds, for the request
    of key [key] and flags [o] and [u], before any error was accumulated *)
Definition success_dict (key : string) (o u : bool) (v : json) : dict :=
  [("key", JStr key); ("request_status", JBool true); ("data", v);
   ("optionalOutput", JBool o); ("isUnique", JBool u);
   ("errors", JArr (map JStr [])); ("warnings", JArr (map JStr []))].

(** The world of the examples in which every command starts a target script
    that emits [vals] *)
Definition served (vals : list json) (documents : list json) : World :=
  {| host := Fixture.posix [Scenario.script];
     uuid4_hex := Scenario.key;
     Popen := fun _ => Ok (target_script (Fixture.codec_of documents) vals);
     codec := Fixture.codec_of documents |}.

(** * Lemmas on the aggregation *)

Section Aggregation.

Lemma is_ResponseLine_fields (i : dict) :
  is_ResponseLine i = true ->
  exists s u d es,
    dict_find i "request_status" = Some s /\ dict_find i "isUnique" = Some u
    /\ dict_find i "data" = Some d /\ dict_find i "errors" = Some (JArr es).
Proof.
  unfold is_ResponseLine.
  destruct (dict_find i "request_status") as [s|]; [|discriminate].
  destruct (dict_find i "isUnique") as [u|]; [|discriminate].
  destruct (dict_find i "data") as [d|]; [|discriminate].
  destruct (dict_find i "errors") as [[| | | | |es|]|]; try discriminate.
  intros _. exists s, u, d, es. repeat split.
Qed.

Lemma scan_failure_lines (ls : list dict) (failure : bool) :
  forallb is_ResponseLine ls = true ->
  scan_failure ls failure = Ok (failure || existsb line_failed ls).
Proof.
  revert failure. induction ls as [|i rest IH]; intros failure Hwf; simpl.
  - now rewrite orb_false_r.
  - simpl in Hwf. apply andb_prop in Hwf as [Hi Hrest].
    destruct (is_ResponseLine_fields i Hi) as (s & u & d & es & Hs & _).
    unfold dict_getitem, line_failed, dict_get. rewrite Hs. simpl.
    rewrite IH by assumption.
    destruct (truthy s), failure; reflexivity.
Qed.

(** The inner loop copies the items of a list, one by one. *)
Lemma append_errors_list (i : dict) (done items errs : list json) :
  dict_find i "errors" = Some (JArr (done ++ items)%list) ->
  append_errors i items (List.length done) errs = Ok (errs ++ items)%list.
Proof.
  revert done errs. induction items as [|x rest IH]; intros done errs Hes; simpl.
  - now rewrite app_nil_r.
  - unfold dict_getitem. rewrite Hes. simpl.
    rewrite nth_error_app2 by lia. rewrite Nat.sub_diag. simpl.
    specialize (IH (done ++ [x])%list (errs ++ [x])%list).
    rewrite length_app, Nat.add_1_r in IH. simpl in IH.
    rewrite IH by now rewrite <- app_assoc.
    now rewrite <- app_assoc.
Qed.

Lemma fold_errors_lines (ls : list dict) (errs : list json) :
  forallb is_ResponseLine ls = true ->
  fold_errors ls errs = Ok (errs ++ flat_map line_errors ls)%list.
Proof.
  revert errs. induction ls as [|i rest IH]; intros errs Hwf; simpl.
  - now rewrite app_nil_r.
  - simpl in Hwf. apply andb_prop in Hwf as [Hi Hrest].
    destruct (is_ResponseLine_fields i Hi) as (s & u & d & es & _ & _ & _ & Hes).
    unfold dict_getitem at 1. rewrite Hes. simpl.
    pose proof (append_errors_list i [] es errs Hes) as Hcopy.
    simpl in Hcopy. rewrite Hcopy. simpl.
    rewrite IH by assumption.
    unfold line_errors at 2, dict_get. rewrite Hes.
    now rewrite app_assoc.
Qed.

Lemma fold_data_lines (ls : list dict) (data_list : list json) :
  forallb is_ResponseLine ls = true ->
  fold_data ls data_list = Ok (data_list ++ map line_data ls)%list.
Proof.
  revert data_list. induction ls as [|i rest IH]; intros data_list Hwf; simpl.
  - now rewrite app_nil_r.
  - simpl in Hwf. apply andb_prop in Hwf as [Hi Hrest].
    destruct (is_ResponseLine_fields i Hi) as (s & u & d & es & _ & _ & Hd & _).
    unfold dict_getitem, line_data at 2, dict_get. rewrite Hd. simpl.
    rewrite IH by assumption.
    unfold line_data at 2, dict_get. rewrite Hd.
    now rewrite <- app_assoc.
Qed.

Lemma aggregate_lines (response : Response) (o : bool)
    (first : dict) (rest : list dict) :
  forallb is_ResponseLine (first :: rest) = true ->
  aggregate response o (first :: rest) = Ok (aggregate_of response first rest).
Proof.
  intros Hwf. unfold aggregate.
  rewrite (scan_failure_lines _ false Hwf).
  rewrite orb_false_l. cbn [bind].
  pose proof Hwf as Hwf'. cbn [forallb] in Hwf'.
  apply andb_prop in Hwf' as [Hfirst _].
  destruct (is_ResponseLine_fields first Hfirst) as (s & u & d & es & _ & Hu & _ & _).
  unfold dict_getitem. rewrite Hu. cbn [bind].
  assert (Hline : line_isUnique first = u)
    by (unfold line_isUnique, dict_get; now rewrite Hu).
  rewrite fold_errors_lines by assumption. cbn [bind].
  rewrite fold_data_lines by assumption. cbn [bind app].
  unfold aggregate_of. rewrite Hline.
  destruct (existsb line_failed (first :: rest)); cbn [negb];
    cbn [set_isUnique set_request_status set_errors set_data append_error
         isUnique errors data request_status optionalOutput warnings];
    destruct (truthy u); try reflexivity;
    destruct rest as [|second rest']; cbn [map List.length Nat.eqb nth];
    rewrite ?length_map; reflexivity.
Qed.

(** The aggregation reads four entries of a line and no other. *)

Lemma dict_getitem_alike (i j : dict) (k : string) :
  dict_find i k = dict_find j k -> dict_getitem i k = dict_getitem j k.
Proof. unfold dict_getitem. now intros ->. Qed.

Lemma scan_failure_alike (ls ls' : list dict) (failure : bool) :
  Forall2 reads_alike ls ls' ->
  scan_failure ls failure = scan_failure ls' failure.
Proof.
  intros H. revert failure.
  induction H as [|i j rest rest' (Hs & _) _ IH]; intros failure; simpl.
  - reflexivity.
  - rewrite (dict_getitem_alike i j _ Hs).
    destruct (dict_getitem j "request_status"); cbn [bind]; [apply IH|reflexivity].
Qed.

Lemma append_errors_alike (i j : dict) (items : list json) (index : nat)
    (errs : list json) :
  dict_find i "errors" = dict_find j "errors" ->
  append_errors i items index errs = append_errors j items index errs.
Proof.
  intros He. revert index errs.
  induction items as [|x rest IH]; intros index errs; simpl.
  - reflexivity.
  - rewrite (dict_getitem_alike i j _ He).
    destruct (dict_getitem j "errors") as [es|]; cbn [bind]; [|reflexivity].
    destruct (getitem_int es index); cbn [bind]; [apply IH|reflexivity].
Qed.

Lemma fold_errors_alike (ls ls' : list dict) (errs : list json) :
  Forall2 reads_alike ls ls' ->
  fold_errors ls errs = fold_errors ls' errs.
Proof.
  intros H. revert errs.
  induction H as [|i j rest rest' (_ & _ & He & _) _ IH]; intros errs; simpl.
  - reflexivity.
  - rewrite (dict_getitem_alike i j _ He).
    destruct (dict_getitem j "errors") as [es|]; cbn [bind]; [|reflexivity].
    destruct (iterate es) as [items|]; cbn [bind]; [|reflexivity].
    rewrite (append_errors_alike i j items 0 errs He).
    destruct (append_errors j items 0 errs); cbn [bind]; [apply IH|reflexivity].
Qed.

Lemma fold_data_alike (ls ls' : list dict) (data_list : list json) :
  Forall2 reads_alike ls ls' ->
  fold_data ls data_list = fold_data ls' data_list.
Proof.
  intros H. revert data_list.
  induction H as [|i j rest rest' (_ & _ & _ & Hd) _ IH]; intros data_list; simpl.
  - reflexivity.
  - rewrite (dict_getitem_alike i j _ Hd).
    destruct (dict_getitem j "data"); cbn [bind]; [apply IH|reflexivity].
Qed.

Lemma aggregate_alike (response : Response) (o : bool) (ls ls' : list dict) :
  Forall2 reads_alike ls ls' ->
  aggregate response o ls = aggregate response o ls'.
Proof.
  intros H. unfold aggregate.
  rewrite (scan_failure_alike ls ls' false H).
  destruct H as [|i j rest rest' Hij Hrest]; [reflexivity|].
  assert (Hall : Forall2 reads_alike (i :: rest) (j :: rest'))
    by (constructor; assumption).
  destruct Hij as (_ & Hu & _ & _).
  rewrite (dict_getitem_alike i j _ Hu).
  destruct (scan_failure (j :: rest') false) as [failure|]; cbn [bind];
    [|reflexivity].
  destruct (dict_getitem j "isUnique") as [x|]; cbn [bind]; [|reflexivity].
  rewrite (fold_errors_alike _ _ _ Hall).
  rewrite (fold_data_alike _ _ _ Hall).
  reflexivity.
Qed.

(** What [request] leaves in [self.response], by the outcome of the
    exchange with the child *)
Lemma request_by_exchange (w : World) (self : Self) (u o : bool) (d : pyobj)
    (language file : string) (x : Exchange) :
  exchange w u o d language file = Ok x ->
  request_body w u o d language file =
    match x with
    | Exited done => Ok (exit_failure (initial_response u o) done)
    | Accepted response_lines =>
        aggregate (initial_response u o) o response_lines
    end.
Proof.
  intros Hx. unfold request_body. rewrite Hx. reflexivity.
Qed.

Lemma request_lines (w : World) (self : Self) (u o : bool) (d : pyobj)
    (language file : string) (first : dict) (rest : list dict) :
  exchange w u o d language file = Ok (Accepted (first :: rest)) ->
  forallb is_ResponseLine (first :: rest) = true ->
  self_response (request w self u o d language file)
  = Some (aggregate_of (initial_response u o) first rest).
Proof.
  intros Hx Hwf. unfold request.
  rewrite (request_by_exchange w self u o d language file _ Hx).
  rewrite aggregate_lines by assumption. reflexivity.
Qed.

End Aggregation.

(** * The response aggregation *)

Section AggregationClaims.

Variables (w : World) (self : Self) (u o : bool) (d : pyobj).
Variables (language file : string).

(** C1, as amended. When the child exits with status 0 and the lines kept
    are response lines: with no line kept, [data] is null, whatever
    [isUnique] the caller passed; otherwise the flag of the first line
    decides. If it is true, [data] is the datum of the single line (itself a
    list when the callee emitted a list), or null when there are several
    lines. If it is false, [data] is the list of the data of the lines, in
    order, so its length is the number of lines kept. *)
Theorem C1_data_by_effective_flag (lines : list dict) :
  exchange w u o d language file = Ok (Accepted lines) ->
  forallb is_ResponseLine lines = true ->
  exists r,
    self_response (request w self u o d language file) = Some r /\
    match lines with
    | [] => data r = JNull
    | first :: rest =>
        if truthy (line_isUnique first) then
          data r = match rest with [] => line_data first | _ :: _ => JNull end
        else
          exists l, data r = JArr l /\ l = map line_data lines
                    /\ List.length l = List.length lines
    end.
Proof.
  intros Hx Hwf. destruct lines as [|first rest].
  - unfold request. rewrite (request_by_exchange w self u o d language file _ Hx).
    unfold aggregate. destruct o; eexists; split; reflexivity.
  - rewrite (request_lines w self u o d language file first rest Hx Hwf).
    eexists. split; [reflexivity|].
    unfold aggregate_of.
    destruct (truthy (line_isUnique first)).
    + destruct rest; reflexivity.
    + eexists. cbn [data]. repeat split. now rewrite length_map.
Qed.

(** C2. When at least one response line is kept, the [isUnique] of the
    result is the one of the first line, whatever flag the caller passed,
    and it is the flag the aggregation branches on: a false one gives the
    list of all data, a true one the datum of the only line (or null when
    there are more). *)
Theorem C2_isUnique_of_first_line (first : dict) (rest : list dict) :
  exchange w u o d language file = Ok (Accepted (first :: rest)) ->
  forallb is_ResponseLine (first :: rest) = true ->
  exists r,
    self_response (request w self u o d language file) = Some r /\
    isUnique r = line_isUnique first /\
    data r =
      if truthy (line_isUnique first)
      then match rest with [] => line_data first | _ :: _ => JNull end
      else JArr (map line_data (first :: rest)).
Proof.
  intros Hx Hwf.
  rewrite (request_lines w self u o d language file first rest Hx Hwf).
  eexists. split; [reflexivity|].
  unfold aggregate_of.
  destruct (truthy (line_isUnique first)); [destruct rest|]; split; reflexivity.
Qed.

(** C3. When the child exits with status 0 and no line is kept: under
    [optionalOutput] the status is unset, [data] is null and the one warning
    says that the optional output was not given; otherwise the status is
    false, [data] is null and the one error says that the target may not
    have used [OutputManager]. *)
Theorem C3_no_accepted_line :
  exchange w u o d language file = Ok (Accepted []) ->
  self_response (request w self u o d language file) =
    Some (if o then
            {| request_status := None; data := JNull; optionalOutput := true;
               isUnique := JBool u;
               warnings := [warning_optional_no_output]; errors := [] |}
          else
            {| request_status := Some false; data := JNull; optionalOutput := false;
               isUnique := JBool u;
               warnings := []; errors := [JStr error_no_output] |}).
Proof.
  intros Hx. unfold request.
  rewrite (request_by_exchange w self u o d language file _ Hx).
  unfold aggregate. destruct o; reflexivity.
Qed.

(** C4. When more than one response line is kept and the flag of the first
    is true, the status is false, [data] is null, and the errors end with
    the count error, which names the number of lines received; the statuses
    of the lines play no part. *)
Theorem C4_count_mismatch (first second : dict) (rest : list dict) :
  exchange w u o d language file = Ok (Accepted (first :: second :: rest)) ->
  forallb is_ResponseLine (first :: second :: rest) = true ->
  truthy (line_isUnique first) = true ->
  exists r,
    self_response (request w self u o d language file) = Some r /\
    request_status r = Some false /\
    data r = JNull /\
    In (JStr (error_count (List.length (first :: second :: rest)))) (errors r) /\
    errors r =
      (flat_map line_errors (first :: second :: rest)
         ++ [JStr (error_count (List.length (first :: second :: rest)))])%list.
Proof.
  intros Hx Hwf Hu.
  rewrite (request_lines w self u o d language file first _ Hx Hwf).
  eexists. split; [reflexivity|].
  unfold aggregate_of. rewrite Hu. cbn [request_status data errors].
  repeat split. apply in_or_app. right. now left.
Qed.

End AggregationClaims.

Lemma C1_data_by_effective_flag_witness :
  exists r,
    self_response
      (request Scenario.three __init__ false true (Serializable JNull)
         "python" Scenario.script) = Some r /\
    exists l, data r = JArr l /\ l = [JInt 1; JInt 2; JInt 3]
              /\ List.length l = 3%nat.
Proof.
  exact (C1_data_by_effective_flag Scenario.three __init__ false true
           (Serializable JNull) "python" Scenario.script
           [Scenario.emitted_dict (JInt 1) false;
            Scenario.emitted_dict (JInt 2) false;
            Scenario.emitted_dict (JInt 3) false]
           eq_refl eq_refl).
Defined.

(** C1 as it is written fails twice. A caller that passes [isUnique=True]
    to a callee that emits the list [[1, 2]] once gets that list as [data];
    a caller that passes [isUnique=False] to a callee that emits nothing gets
    null, not the empty list. *)
Lemma C1_counterexample :
  (exists r,
     self_response
       (request Scenario.one_list __init__ true true (Serializable JNull)
          "python" Scenario.script) = Some r
     /\ data r = JArr [JInt 1; JInt 2] /\ is_sequence (data r) = true)
  /\
  (exchange Scenario.silent false true (Serializable JNull)
     "python" Scenario.script = Ok (Accepted [])
   /\ exists r,
     self_response
       (request Scenario.silent __init__ false true (Serializable JNull)
          "python" Scenario.script) = Some r
     /\ data r = JNull /\ is_sequence (data r) = false).
Proof.
  split; [|split; [reflexivity|]]; eexists; repeat split.
Qed.

Lemma C2_isUnique_of_first_line_witness :
  exists r,
    self_response
      (request Scenario.one_not_unique __init__ true true (Serializable JNull)
         "python" Scenario.script) = Some r /\
    isUnique r = JBool false /\ data r = JArr [JInt 7].
Proof.
  exact (C2_isUnique_of_first_line Scenario.one_not_unique __init__ true true
           (Serializable JNull) "python" Scenario.script
           (Scenario.emitted_dict (JInt 7) false) [] eq_refl eq_refl).
Defined.

Lemma C3_no_accepted_line_witness :
  self_response
    (request Scenario.silent __init__ true false (Serializable JNull)
       "python" Scenario.script)
  = Some {| request_status := Some false; data := JNull; optionalOutput := false;
            isUnique := JBool true;
            warnings := []; errors := [JStr error_no_output] |}.
Proof.
  exact (C3_no_accepted_line Scenario.silent __init__ true false
           (Serializable JNull) "python" Scenario.script eq_refl).
Defined.

Lemma C4_count_mismatch_witness :
  exists r,
    self_response
      (request Scenario.two_unique __init__ true true (Serializable JNull)
         "python" Scenario.script) = Some r /\
    request_status r = Some false /\
    data r = JNull /\
    In (JStr "Error: Expected 1 output (isUnique=True) but received 2.") (errors r) /\
    errors r = [JStr "Error: Expected 1 output (isUnique=True) but received 2."].
Proof.
  exact (C4_count_mismatch Scenario.two_unique __init__ true true
           (Serializable JNull) "python" Scenario.script
           (Scenario.emitted_dict (JInt 1) true)
           (Scenario.emitted_dict (JInt 2) true) [] eq_refl eq_refl eq_refl).
Defined.

(** * The caller bridge *)

Section Raised.

(** What the aggregation can raise is a [KeyError], an [IndexError] or a
    [TypeError]: none of them is caught with the file errors. *)

Lemma dict_getitem_raises (i : dict) (k : string) (e : exn) :
  dict_getitem i k = Raise e -> caught_as_file_error (exn_cls e) = false.
Proof.
  unfold dict_getitem. destruct (dict_find i k); [discriminate|].
  now intros [= <-].
Qed.

Lemma getitem_int_raises (v : json) (index : nat) (e : exn) :
  getitem_int v index = Raise e -> caught_as_file_error (exn_cls e) = false.
Proof.
  destruct v; simpl; try (now intros [= <-]).
  - destruct (String.get index s); [discriminate|]. now intros [= <-].
  - destruct (nth_error l index); [discriminate|]. now intros [= <-].
Qed.

Lemma iterate_raises (v : json) (e : exn) :
  iterate v = Raise e -> caught_as_file_error (exn_cls e) = false.
Proof.
  destruct v; simpl; try discriminate; now intros [= <-].
Qed.

Lemma scan_failure_raises (ls : list dict) (failure : bool) (e : exn) :
  scan_failure ls failure = Raise e -> caught_as_file_error (exn_cls e) = false.
Proof.
  revert failure. induction ls as [|i rest IH]; intros failure; simpl.
  - discriminate.
  - destruct (dict_getitem i "request_status") eqn:Hs; cbn [bind].
    + apply IH.
    + intros [= <-]. eapply dict_getitem_raises; eassumption.
Qed.

Lemma append_errors_raises (i : dict) (items : list json) (index : nat)
    (errs : list json) (e : exn) :
  append_errors i items index errs = Raise e ->
  caught_as_file_error (exn_cls e) = false.
Proof.
  revert index errs. induction items as [|x rest IH]; intros index errs; simpl.
  - discriminate.
  - destruct (dict_getitem i "errors") as [es|e'] eqn:Hes; cbn [bind].
    + destruct (getitem_int es index) as [y|e'] eqn:Hy; cbn [bind].
      * apply IH.
      * intros [= <-]. eapply getitem_int_raises; eassumption.
    + intros [= <-]. eapply dict_getitem_raises; eassumption.
Qed.

Lemma fold_errors_raises (ls : list dict) (errs : list json) (e : exn) :
  fold_errors ls errs = Raise e -> caught_as_file_error (exn_cls e) = false.
Proof.
  revert errs. induction ls as [|i rest IH]; intros errs; simpl.
  - discriminate.
  - destruct (dict_getitem i "errors") as [es|e'] eqn:Hes; cbn [bind].
    + destruct (iterate es) as [items|e'] eqn:Hit; cbn [bind].
      * destruct (append_errors i items 0 errs) as [errs'|e'] eqn:Hap; cbn [bind].
        -- apply IH.
        -- intros [= <-]. eapply append_errors_raises; eassumption.
      * intros [= <-]. eapply iterate_raises; eassumption.
    + intros [= <-]. eapply dict_getitem_raises; eassumption.
Qed.

Lemma fold_data_raises (ls : list dict) (data_list : list json) (e : exn) :
  fold_data ls data_list = Raise e -> caught_as_file_error (exn_cls e) = false.
Proof.
  revert data_list. induction ls as [|i rest IH]; intros data_list; simpl.
  - discriminate.
  - destruct (dict_getitem i "data") as [x|e'] eqn:Hd; cbn [bind].
    + apply IH.
    + intros [= <-]. eapply dict_getitem_raises; eassumption.
Qed.

Lemma aggregate_raises (response : Response) (o : bool) (ls : list dict) (e : exn) :
  aggregate response o ls = Raise e -> caught_as_file_error (exn_cls e) = false.
Proof.
  unfold aggregate. destruct ls as [|first rest].
  - destruct o; discriminate.
  - destruct (scan_failure (first :: rest) false) as [failure|e'] eqn:Hs; cbn [bind];
      [|intros [= <-]; eapply scan_failure_raises; eassumption].
    destruct (dict_getitem first "isUnique") as [x|e'] eqn:Hu; cbn [bind];
      [|intros [= <-]; eapply dict_getitem_raises; eassumption].
    match goal with
    | |- context [fold_errors ?l ?acc] =>
        destruct (fold_errors l acc) as [errs|e'] eqn:He; cbn [bind];
          [|intros [= <-]; eapply fold_errors_raises; eassumption]
    end.
    destruct (fold_data (first :: rest) []) as [data_list|e'] eqn:Hd; cbn [bind];
      [|intros [= <-]; eapply fold_data_raises; eassumption].
    destruct (truthy _); [destruct (_ =? _)%nat|]; discriminate.
Qed.

(** The aggregation leaves the warnings alone, but for the one it adds when
    there is no line and the output is optional. *)
Lemma aggregate_warnings (response r : Response) (o : bool) (ls : list dict) :
  aggregate response o ls = Ok r ->
  warnings r =
    match ls with
    | [] => if o then (warnings response ++ [warning_optional_no_output])%list
            else warnings response
    | _ :: _ => warnings response
    end.
Proof.
  unfold aggregate. destruct ls as [|first rest].
  - destruct o; now intros [= <-].
  - destruct (scan_failure (first :: rest) false) as [failure|]; cbn [bind];
      [|discriminate].
    destruct (dict_getitem first "isUnique") as [x|]; cbn [bind]; [|discriminate].
    match goal with
    | |- context [fold_errors ?l ?acc] =>
        destruct (fold_errors l acc) as [errs|]; cbn [bind]; [|discriminate]
    end.
    destruct (fold_data (first :: rest) []) as [data_list|]; cbn [bind];
      [|discriminate].
    destruct (truthy _); [destruct (_ =? _)%nat|];
      intros [= <-]; destruct failure; reflexivity.
Qed.

Lemma exit_failure_fields (u o : bool) (done : Completed) :
  exit_failure (initial_response u o) done =
    {| request_status := Some false; data := JNull; optionalOutput := o;
       isUnique := JBool u;
       warnings := [warning_target_script];
       errors :=
         JStr ("Process exited with code " ++ Py.str_int (returncode done))
         :: (if truthy (JStr (Py.strip (stderr_text done)))
             then [JStr ("stderr: " ++ Py.strip (stderr_text done))]
             else []) |}.
Proof.
  unfold exit_failure. destruct (truthy (JStr (Py.strip (stderr_text done))));
    reflexivity.
Qed.

(** A failure of the resolver, and a failure to spawn, are exceptions of
    the [try] block. *)
Lemma resolver_failure_raised (w : World) (u o : bool) (d : pyobj)
    (language file : string) (e : exn) :
  fst (get_command (host w) language file []) = Raise e ->
  request_body w u o d language file = Raise e.
Proof.
  intros H. unfold request_body, exchange. rewrite H. reflexivity.
Qed.


End Raised.



(** C10. The warnings of a response are always one of the lists the bridge
    itself writes: none, the warning of a failed target, the warning of an
    optional output not given, or the warning of a target file that cannot
    be run. With at least one line kept there is no warning at all. And the
    aggregation does not read the [warnings] of a line: lines that agree on
    their status, flag, errors and datum aggregate to the same result, so a
    warning of the callee is dropped without a trace, while its errors are
    folded in. *)
Theorem C10_warnings_of_the_bridge_only (w : World) (self : Self) (u o : bool)
    (d : pyobj) (language file : string) :
  exists r,
    self_response (request w self u o d language file) = Some r /\
    In (warnings r) bridge_warnings /\
    (forall first rest,
       exchange w u o d language file = Ok (Accepted (first :: rest)) ->
       warnings r = []) /\
    (forall ls ls',
       Forall2 reads_alike ls ls' ->
       aggregate (initial_response u o) o ls
       = aggregate (initial_response u o) o ls') /\
    (forall first rest,
       exchange w u o d language file = Ok (Accepted (first :: rest)) ->
       forallb is_ResponseLine (first :: rest) = true ->
       exists tail,
         errors r = (flat_map line_errors (first :: rest) ++ tail)%list).
Proof.
  assert (Halike : forall ls ls',
             Forall2 reads_alike ls ls' ->
             aggregate (initial_response u o) o ls
             = aggregate (initial_response u o) o ls')
    by (intros ls ls'; apply aggregate_alike).
  unfold request.
  destruct (exchange w u o d language file) as [x|e] eqn:Hx.
  - rewrite (request_by_exchange w self u o d language file _ Hx).
    destruct x as [done|ls].
    + eexists. split; [reflexivity|]. rewrite exit_failure_fields. cbn [warnings].
      repeat split; [right; now left | discriminate | assumption | discriminate].
    + destruct (aggregate (initial_response u o) o ls) as [r|e] eqn:Ha.
      * eexists. split; [reflexivity|].
        rewrite (aggregate_warnings _ _ _ _ Ha). cbn [initial_response warnings].
        repeat split.
        -- destruct ls; [destruct o|]; cbn; auto.
        -- now intros first rest [= ->].
        -- assumption.
        -- intros first rest [= ->] Hwf.
           rewrite aggregate_lines in Ha by assumption. injection Ha as <-.
           unfold aggregate_of. cbn [initial_response errors app].
           destruct (truthy (line_isUnique first)); [destruct rest|];
             cbn [errors]; eexists; try (now rewrite app_nil_r); reflexivity.
      * eexists. split; [reflexivity|]. unfold handle.
        rewrite (aggregate_raises _ _ _ _ Ha). cbn [warnings].
        repeat split; [now left | assumption |].
        intros first rest [= ->] Hwf.
        rewrite aggregate_lines in Ha by assumption. discriminate.
  - assert (Hbody : request_body w u o d language file = Raise e)
      by (unfold request_body; now rewrite Hx).
    rewrite Hbody. eexists. split; [reflexivity|]. unfold handle.
    repeat split; [|discriminate|assumption|discriminate].
    destruct (caught_as_file_error (exn_cls e)); cbn; auto.
Qed.

(** * The launch resolver *)

Section Resolver.

Lemma table_find_absent {A} (t : list (string * A)) (k : string) :
  Py.mem k (map fst t) = false -> table_find t k = None.
Proof.
  unfold Py.mem. induction t as [|[k' v] rest IH]; simpl; intros H.
  - reflexivity.
  - apply orb_false_elim in H as [Hk Hrest].
    rewrite String.eqb_sym, Hk. now apply IH.
Qed.

Lemma lang_map_keys (path ext : string) : map fst (lang_map path ext) = languages.
Proof. reflexivity. Qed.

Lemma extension_map_keys : map fst extension_map = languages.
Proof. reflexivity. Qed.

(** Every language whose file must be executable is in the table. *)
Lemma compiled_langs_recognized (k : string) :
  Py.mem k languages = false -> Py.mem k compiled_langs = false.
Proof.
  intros H. destruct (Py.mem k compiled_langs) eqn:Hc; [|reflexivity].
  unfold Py.mem in Hc. apply existsb_exists in Hc as (x & Hin & Hx).
  apply String.eqb_eq in Hx. subst x.
  unfold compiled_langs in Hin. simpl in Hin.
  repeat (destruct Hin as [<-|Hin]; [discriminate H|]).
  contradiction.
Qed.

End Resolver.

(** C7. For a language of the table and a file whose extension is not among
    those the table lists for it, the resolver raises the [ValueError] of
    the extension check, and the log of file system calls is as it was: no
    call was made, so the answer is the same whether the file exists or
    not. *)
Theorem C7_extension_checked_first (h : Host) (language file : string)
    (valid_extensions : list string) (log : list fs_call) :
  table_find extension_map (Py.upper language) = Some valid_extensions ->
  Py.mem (file_ext h file) valid_extensions = false ->
  get_command h language file log =
    (Raise (Exn ValueError
              (invalid_extension_msg (native_path h file) language valid_extensions)),
     log).
Proof.
  intros Hlang Hext. unfold get_command, FSMonad.bind.
  rewrite Hlang, Hext. reflexivity.
Qed.

Lemma C7_extension_checked_first_witness :
  path_exists Scenario.empty_host "missing/job.js" = false /\
  get_command Scenario.empty_host "Python" "missing/job.js" [] =
    (Raise (Exn ValueError
              "Invalid file 'missing/job.js' for language 'Python'. Expected: e.g. 'file.py'"),
     []).
Proof.
  split; [reflexivity|].
  exact (C7_extension_checked_first Scenario.empty_host "Python" "missing/job.js"
           [".py"] [] eq_refl eq_refl).
Defined.

(** C8, as amended. For a language that is not in the table, the resolver
    goes through the checks of the file first: it raises [FileNotFoundError]
    when the path does not exist, the [ValueError] of a path that is not a
    file, the [PermissionError] of a file that cannot be read, and only for
    a readable regular file the [ValueError] of the unsupported language. *)
Theorem C8_unsupported_language_after_file_checks (h : Host)
    (language file : string) (log : list fs_call) :
  recognized language = false ->
  get_command h language file log =
    let path := native_path h file in
    if negb (path_exists h path) then
      (Raise (Exn FileNotFoundError ("File not found: " ++ path)),
       (log ++ [Call_exists path])%list)
    else if negb (path_isfile h path) then
      (Raise (Exn ValueError ("Path is not a file: " ++ path)),
       (log ++ [Call_exists path; Call_isfile path])%list)
    else if negb (access_R_OK h path) then
      (Raise (Exn PermissionError ("File is not readable: " ++ path)),
       (log ++ [Call_exists path; Call_isfile path; Call_access_R path])%list)
    else
      (Raise (Exn ValueError ("Unsupported language: " ++ language)),
       (log ++ [Call_exists path; Call_isfile path; Call_access_R path])%list).
Proof.
  unfold recognized. intros Hlang.
  unfold get_command, FSMonad.bind.
  rewrite (table_find_absent extension_map)
    by (now rewrite extension_map_keys).
  rewrite (compiled_langs_recognized _ Hlang).
  rewrite (table_find_absent (lang_map _ _))
    by (now rewrite lang_map_keys).
  unfold os_path_exists, os_path_isfile, os_access_R, FSMonad.query,
    FSMonad.when, FSMonad.ret, FSMonad.raise.
  cbv beta iota zeta.
  destruct (path_exists h (native_path h file)); cbv beta iota delta [negb];
    [|reflexivity].
  destruct (path_isfile h (native_path h file)); cbv beta iota delta [negb];
    [|now rewrite <- app_assoc].
  destruct (access_R_OK h (native_path h file)); cbv beta iota delta [negb];
    now rewrite <- !app_assoc.
Qed.

Lemma C8_unsupported_language_after_file_checks_witness :
  get_command (Fixture.posix ["job.cob"]) "cobol" "job.cob" [] =
    (Raise (Exn ValueError "Unsupported language: cobol"),
     [Call_exists "job.cob"; Call_isfile "job.cob"; Call_access_R "job.cob"]).
Proof.
  exact (C8_unsupported_language_after_file_checks (Fixture.posix ["job.cob"])
           "cobol" "job.cob" [] eq_refl).
Defined.

(** C8 as it is written fails: for the unknown language [cobol] and a file
    that does not exist, the resolver raises [FileNotFoundError], not the
    error of the unsupported language. *)
Lemma C8_counterexample :
  recognized "cobol" = false /\
  path_exists Scenario.empty_host "job.cob" = false /\
  fst (get_command Scenario.empty_host "cobol" "job.cob" []) =
    Raise (Exn FileNotFoundError "File not found: job.cob") /\
  fst (get_command Scenario.empty_host "cobol" "job.cob" []) <>
    Raise (Exn ValueError "Unsupported language: cobol").
Proof.
  repeat split. discriminate.
Qed.

(** * The callee bridge *)

Section Uninitialized.

Import OutputManager.

Variable c : Codec.

(** The state the first [output] of a class without a request leaves *)
Lemma output_reports_fault (s : State) (val : json) :
  not_initialized s = true ->
  output c val s =
    (Ok tt,
     set_init_error (JBool true)
       (set_channel
          (channel s
             ++ [json_dumps c (not_initialized_line s);
                 String "010"%char EmptyString])%list
          (set_errors (errors s ++ [error_not_initialized])%list
             (set_request_status (JBool false)
                (set_sys_stdout RealStdout s))))).
Proof.
  destruct s as [saved text req dat status opt ustate ierr errs warns out inp chan].
  unfold not_initialized. cbn [request init_error original_stdout]. intros H.
  apply andb_prop in H as [H Hsaved]. apply andb_prop in H as [Hreq Herr].
  apply negb_true_iff in Hreq, Herr.
  unfold output, bindM, get. cbn [request init_error]. rewrite Hreq, Herr.
  cbn [negb].
  unfold write, response_line, restore_stdout, stdout_write, modify, lift, bindM,
    get, ret, not_initialized_line.
  destruct saved as [[|]|]; try discriminate; cbn; rewrite Hreq; cbn;
    rewrite <- app_assoc; reflexivity.
Qed.

(** Once the fault is reported, [output] does nothing. *)
Lemma output_after_fault (s : State) (val : json) :
  truthy (request s) = false ->
  truthy (init_error s) = true ->
  output c val s = (Ok tt, s).
Proof.
  intros Hreq Herr. unfold output, bindM, get. rewrite Hreq, Herr. reflexivity.
Qed.

Lemma outputs_after_fault (s : State) (vals : list json) :
  truthy (request s) = false ->
  truthy (init_error s) = true ->
  outputs c vals s = s.
Proof.
  intros Hreq Herr. induction vals as [|v rest IH]; simpl.
  - reflexivity.
  - now rewrite output_after_fault.
Qed.

(** A class on which [init] was never called holds no request. *)
Lemma class_definition_not_initialized (stdin_text : string) :
  not_initialized (class_definition stdin_text) = true.
Proof. reflexivity. Qed.

(** Neither does one on which [init] failed without storing a request that
    counts as true: the input was not JSON, or it was an empty or null
    document. *)
Lemma failed_init_not_initialized (stdin_text : string) :
  truthy (request (snd (init c (class_definition stdin_text)))) = false ->
  not_initialized (snd (init c (class_definition stdin_text))) = true.
Proof.
  unfold init, bindM, modify, lift, stdin_read.
  cbn -[truthy getitem_str not_initialized].
  destruct (json_loads c stdin_text) as [v|e]; [|reflexivity].
  destruct (getitem_str v "data") as [x|e];
    [destruct (getitem_str v "optionalOutput") as [y|e]|];
    unfold not_initialized; cbn -[truthy]; intros ->; reflexivity.
Qed.

End Uninitialized.

(** X24. While the class holds no request (no [init] was called, or the
    one called failed before it stored a request that counts as true) and
    the stream saved, if any, is the real one, the first [output] writes one
    response line to the real output channel, with a null key, the status
    false and, last of its errors, the one that says the manager is not
    initialized; every later [output], of any value, leaves the state as it
    is and writes nothing. *)
Theorem X24_fault_reported_once (c : Codec) (s : OutputManager.State)
    (val : json) (later : list json) :
  not_initialized s = true ->
  exists s1,
    OutputManager.output c val s = (Ok tt, s1) /\
    OutputManager.channel s1 =
      (OutputManager.channel s
         ++ [json_dumps c (not_initialized_line s);
             String "010"%char EmptyString])%list /\
    (forall v, OutputManager.output c v s1 = (Ok tt, s1)) /\
    OutputManager.channel (OutputManager.outputs c later s1)
      = OutputManager.channel s1.
Proof.
  intros Hs. pose proof Hs as Hs'. unfold not_initialized in Hs'.
  apply andb_prop in Hs' as [Hs' _]. apply andb_prop in Hs' as [Hreq _].
  apply negb_true_iff in Hreq.
  eexists. split; [apply output_reports_fault; assumption|].
  split; [reflexivity|]. split.
  - intros v. apply output_after_fault; [exact Hreq | reflexivity].
  - rewrite outputs_after_fault; [reflexivity | exact Hreq | reflexivity].
Qed.

Lemma X24_fault_reported_once_witness :
  exists s1,
    OutputManager.output (Fixture.codec_of []) (JInt 5)
      (OutputManager.class_definition EmptyString) = (Ok tt, s1) /\
    OutputManager.channel s1 =
      ([] ++ [Fixture.dumps
                (not_initialized_line (OutputManager.class_definition EmptyString));
              String "010"%char EmptyString])%list /\
    (forall v, OutputManager.output (Fixture.codec_of []) v s1 = (Ok tt, s1)) /\
    OutputManager.channel
      (OutputManager.outputs (Fixture.codec_of []) [JInt 6; JInt 7] s1)
      = OutputManager.channel s1.
Proof.
  exact (X24_fault_reported_once (Fixture.codec_of [])
           (OutputManager.class_definition EmptyString) (JInt 5)
           [JInt 6; JInt 7] eq_refl).
Defined.

(** C9. The fault of a manager that was not initialized, on two inputs
    that make [init] fail. On the input [x], which is not JSON, [init]
    raises in [json.loads] before it stores anything, and the two calls of
    [output] that follow write the one line of the not-initialized fault, as
    the claim says. On the input [[1]] the call of [init] raises a
    [TypeError] after it has stored the decoded list; the [output] that
    follows takes the list for a request, skips the branch of the fault,
    raises in its turn and writes nothing: the fault is not reported. *)
Lemma C9_failed_init_hides_fault :
  (let started := OutputManager.class_definition "x" in
   let failed := OutputManager.init Scenario.list_codec started in
   fst failed
     = Raise (Exn JSONDecodeError "Expecting value: line 1 column 1 (char 0)")
   /\ OutputManager.request (snd failed) = JNull
   /\ OutputManager.channel
        (OutputManager.outputs Scenario.list_codec [JInt 5; JInt 6] (snd failed))
      = [Fixture.dumps (not_initialized_line (snd failed));
         String "010"%char EmptyString])
  /\
  (let started := OutputManager.class_definition "[1]" in
   let failed := OutputManager.init Scenario.list_codec started in
   fst failed
     = Raise (Exn TypeError "list indices must be integers or slices, not str")
   /\ OutputManager.request (snd failed) = JArr [JInt 1]
   /\ fst (OutputManager.output Scenario.list_codec (JInt 5) (snd failed))
      = Raise (Exn TypeError "list indices must be integers or slices, not str")
   /\ OutputManager.channel
        (snd (OutputManager.output Scenario.list_codec (JInt 5) (snd failed))) = []).
Proof.
  repeat split.
Qed.

(** * End to end *)

Section EndToEnd.

(** A callee that reads the request of [Scenario.request_n2] and emits the list
    [[1, 2]] once writes the line of [Scenario.one_list]. *)
Example callee_emits_a_list :
  OutputManager.channel
    (OutputManager.outputs Scenario.callee_codec [JArr [JInt 1; JInt 2]]
       (snd (OutputManager.init Scenario.callee_codec
               (OutputManager.class_definition
                  (Fixture.dumps Scenario.request_n2)))))
  = [Fixture.dumps (Scenario.emitted (JArr [JInt 1; JInt 2]) true);
     String "010"%char EmptyString].
Proof. reflexivity. Qed.

(** A second emission under uniqueness is written all the same, with the
    status false and the error of the emission out of bounds. *)
Example callee_emits_twice :
  OutputManager.channel
    (OutputManager.outputs Scenario.callee_codec [JInt 1; JInt 2]
       (snd (OutputManager.init Scenario.callee_codec
               (OutputManager.class_definition
                  (Fixture.dumps Scenario.request_n2)))))
  = [Fixture.dumps (Scenario.emitted (JInt 1) true);
     String "010"%char EmptyString;
     Fixture.dumps
       (Fixture.line (JStr Scenario.key) (JBool false) (JInt 2) (JBool true)
          ["Error: outputs out of bound (isUnique: True)."]);
     String "010"%char EmptyString].
Proof. reflexivity. Qed.

(** The three emissions of a callee told [isUnique=False] come back as the
    list of their data. *)
Example caller_collects_three :
  get_data
    (request Scenario.three __init__ false true (Serializable JNull)
       "python" Scenario.script)
  = JArr [JInt 1; JInt 2; JInt 3].
Proof. reflexivity. Qed.

(** A target file that does not exist *)
Example caller_file_not_found :
  get_response
    (request Scenario.silent __init__ true true (Serializable JNull)
       "python" "absent.py")
  = Some {| request_status := Some false;
            data := JNull;
            optionalOutput := true; isUnique := JBool true;
            warnings := [warning_target_file];
            errors := [JStr "Error: File not found: absent.py"] |}.
Proof. reflexivity. Qed.

(** A datum [json.dumps] cannot write is an unexpected error. *)
Example caller_unserializable_data :
  get_response
    (request Scenario.silent __init__ true true (Unserializable "set")
       "python" Scenario.script)
  = Some {| request_status := Some false;
            data := JNull;
            optionalOutput := true; isUnique := JBool true;
            warnings := [];
            errors :=
              [JStr "Unexpected error: Object of type set is not JSON serializable"] |}.
Proof. reflexivity. Qed.

(** A line that is an empty dictionary is kept, since it has no key, and
    the aggregation fails on it. *)
Example caller_malformed_line :
  request_body Scenario.empty_dict true true (Serializable JNull)
    "python" Scenario.script
  = Raise (Exn KeyError "'request_status'")
  /\ get_response
       (request Scenario.empty_dict __init__ true true (Serializable JNull)
          "python" Scenario.script)
     = Some {| request_status := Some false;
               data := JNull;
               optionalOutput := true; isUnique := JBool true;
               warnings := [];
               errors :=
                 [JStr "Unexpected error: 'request_status'"] |}.
Proof. split; reflexivity. Qed.

(** The status of a line is relayed as it is: a line that says false and
    lists no error gives a response that says false and lists none. This is
    the callee's verdict, not a failure path of the call. *)
Example caller_relays_status :
  get_response
    (request Scenario.bare_failure __init__ true true (Serializable JNull)
       "python" Scenario.script)
  = Some {| request_status := Some false;
            data := JNull;
            optionalOutput := true; isUnique := JBool true;
            warnings := [];
            errors := [] |}.
Proof. reflexivity. Qed.

(** The warning a line carries does not reach the caller. *)
Example caller_drops_line_warnings :
  get_response
    (request Scenario.warned __init__ true true (Serializable JNull)
       "python" Scenario.script)
  = Some {| request_status := Some true; data := JInt 4;
            optionalOutput := true; isUnique := JBool true;
            warnings := []; errors := [] |}.
Proof. reflexivity. Qed.

End EndToEnd.

(** * Further properties of the launch resolver *)

Section ResolverMore.

Lemma table_find_present {A} (t : list (string * A)) (k : string) :
  Py.mem k (map fst t) = true -> exists v, table_find t k = Some v.
Proof.
  unfold Py.mem. induction t as [|[k' v] rest IH]; simpl; intros H.
  - discriminate.
  - rewrite (String.eqb_sym k k') in H. destruct (String.eqb k' k).
    + now exists v.
    + apply IH. exact H.
Qed.

Lemma table_find_keys {A} (t : list (string * A)) (k : string) (v : A) :
  table_find t k = Some v -> Py.mem k (map fst t) = true.
Proof.
  intros H. destruct (Py.mem k (map fst t)) eqn:Hm; [reflexivity|].
  rewrite (table_find_absent t k Hm) in H. discriminate.
Qed.

(** The resolver when the extension check rejects the file *)
Lemma get_command_rejected (h : Host) (language file : string)
    (valid_extensions : list string) (log : list fs_call) :
  table_find extension_map (Py.upper language) = Some valid_extensions ->
  Py.mem (file_ext h file) valid_extensions = false ->
  get_command h language file log =
    (Raise (Exn ValueError
              (invalid_extension_msg (native_path h file) language valid_extensions)),
     log).
Proof.
  intros Hlang Hext. unfold get_command, FSMonad.bind.
  rewrite Hlang, Hext. reflexivity.
Qed.

(** The resolver when the extension check lets the file through: the three
    checks of the file in order, then the table of commands *)
Lemma get_command_checks (h : Host) (language file : string) (log : list fs_call) :
  extension_accepted h language file = true ->
  get_command h language file log =
    let p := native_path h file in
    if negb (path_exists h p) then
      (Raise (Exn FileNotFoundError ("File not found: " ++ p)),
       (log ++ [Call_exists p])%list)
    else if negb (path_isfile h p) then
      (Raise (Exn ValueError ("Path is not a file: " ++ p)),
       (log ++ [Call_exists p; Call_isfile p])%list)
    else if negb (access_granted h language file) then
      (Raise (Exn PermissionError
                ((if is_compiled language then "File is not executable: "
                  else "File is not readable: ") ++ p)),
       (log ++ resolver_calls h language file)%list)
    else
      (match table_find (lang_map (launch_path h language file) (file_ext h file))
               (Py.upper language) with
       | Some command => Ok command
       | None => Raise (Exn ValueError ("Unsupported language: " ++ language))
       end,
       (log ++ resolver_calls h language file)%list).
Proof.
  unfold extension_accepted. intros Hext.
  unfold get_command, FSMonad.bind.
  assert (Hskip :
    match table_find extension_map (Py.upper language) with
    | Some valid_extensions =>
        FSMonad.when (negb (Py.mem (file_ext h file) valid_extensions))
          (FSMonad.raise
             (Exn ValueError
                (invalid_extension_msg (native_path h file) language
                   valid_extensions)))
    | None => FSMonad.ret tt
    end log = (Ok tt, log)).
  { destruct (table_find extension_map (Py.upper language)); [|reflexivity].
    rewrite Hext. reflexivity. }
  rewrite Hskip.
  unfold resolver_calls, access_call, access_granted, launch_path, is_compiled.
  unfold os_path_exists, os_path_isfile, os_access_R, os_access_X, FSMonad.query,
    FSMonad.when, FSMonad.ret, FSMonad.raise.
  cbv beta iota zeta.
  destruct (path_exists h (native_path h file)); cbv beta iota delta [negb];
    [|reflexivity].
  destruct (path_isfile h (native_path h file)); cbv beta iota delta [negb];
    [|now rewrite <- app_assoc].
  destruct (Py.mem (Py.upper language) compiled_langs); cbv beta iota.
  - destruct (access_X_OK h (native_path h file)); cbv beta iota delta [negb];
      rewrite <- !app_assoc; cbn [app]; [|reflexivity].
    match goal with
    | |- context [table_find (lang_map ?p ?e) ?k] =>
        destruct (table_find (lang_map p e) k); reflexivity
    end.
  - destruct (access_R_OK h (native_path h file)); cbv beta iota delta [negb];
      rewrite <- !app_assoc; cbn [app andb]; [|reflexivity].
    match goal with
    | |- context [table_find (lang_map ?p ?e) ?k] =>
        destruct (table_find (lang_map p e) k); reflexivity
    end.
Qed.

Lemma table_find_Forall {A} (P : A -> Prop) (t : list (string * A))
    (k : string) (v : A) :
  Forall (fun kv => P (snd kv)) t -> table_find t k = Some v -> P v.
Proof.
  induction 1 as [|[k' v'] rest Hhead _ IH]; simpl.
  - discriminate.
  - destruct (String.eqb k' k); [now intros [= <-] | exact IH].
Qed.

(** Every entry of the table of commands ends with the path. *)
Lemma lang_map_command (path ext k : string) (command : list string) :
  table_find (lang_map path ext) k = Some command ->
  command <> [] /\ last command EmptyString = path.
Proof.
  apply (table_find_Forall
           (fun command => command <> [] /\ last command EmptyString = path)).
  unfold lang_map.
  destruct (String.eqb ext ".dll"), (String.eqb ext ".go");
    repeat constructor; discriminate.
Qed.

End ResolverMore.

Section ResolverProperties.

Lemma get_command_ok_iff (h : Host) (language file : string)
    (log log' : list fs_call) (command : list string) :
  get_command h language file log = (Ok command, log') <->
  (extension_accepted h language file = true
   /\ path_exists h (native_path h file) = true
   /\ path_isfile h (native_path h file) = true
   /\ access_granted h language file = true
   /\ table_find (lang_map (launch_path h language file) (file_ext h file))
        (Py.upper language) = Some command
   /\ log' = (log ++ resolver_calls h language file)%list).
Proof.
  destruct (extension_accepted h language file) eqn:Hext.
  - rewrite (get_command_checks h language file log Hext). cbv zeta.
    destruct (path_exists h (native_path h file));
      [|split; [discriminate | intros (_ & H & _); discriminate]].
    destruct (path_isfile h (native_path h file));
      [|split; [discriminate | intros (_ & _ & H & _); discriminate]].
    destruct (access_granted h language file);
      [|split; [discriminate | intros (_ & _ & _ & H & _); discriminate]].
    cbn [negb].
    destruct (table_find _ (Py.upper language)) as [found|].
    + split.
      * intros [= <- <-]. repeat split.
      * intros (_ & _ & _ & _ & [= <-] & ->). reflexivity.
    + split; [discriminate | intros (_ & _ & _ & _ & H & _); discriminate].
  - split; [|intros (H & _); discriminate].
    unfold extension_accepted in Hext.
    destruct (table_find extension_map (Py.upper language)) as [valid|] eqn:Hlang;
      [|discriminate].
    rewrite (get_command_rejected h language file valid log Hlang Hext).
    discriminate.
Qed.

Lemma get_command_raises (h : Host) (language file : string)
    (log log' : list fs_call) (e : exn) :
  get_command h language file log = (Raise e, log') ->
  caught_as_file_error (exn_cls e) = true.
Proof.
  destruct (extension_accepted h language file) eqn:Hext.
  - rewrite (get_command_checks h language file log Hext). cbv zeta.
    destruct (negb (path_exists h (native_path h file)));
      [now intros [= <- _]|].
    destruct (negb (path_isfile h (native_path h file)));
      [now intros [= <- _]|].
    destruct (negb (access_granted h language file));
      [now intros [= <- _]|].
    destruct (table_find _ (Py.upper language)); [discriminate|].
    now intros [= <- _].
  - unfold extension_accepted in Hext.
    destruct (table_find extension_map (Py.upper language)) as [valid|] eqn:Hlang;
      [|discriminate].
    rewrite (get_command_rejected h language file valid log Hlang Hext).
    now intros [= <- _].
Qed.

End ResolverProperties.

(** X1. The resolver returns a command exactly when the extension check
    lets the file through, the path exists, is a regular file, can be
    executed (for a language whose file is run as it is) or read (for any
    other), and the language has an entry in the table of commands; the
    command is that entry, and the three file system calls were made. *)
Theorem X1_resolved_iff (h : Host) (language file : string)
    (log log' : list fs_call) (command : list string) :
  get_command h language file log = (Ok command, log') <->
  (extension_accepted h language file = true
   /\ path_exists h (native_path h file) = true
   /\ path_isfile h (native_path h file) = true
   /\ access_granted h language file = true
   /\ table_find (lang_map (launch_path h language file) (file_ext h file))
        (Py.upper language) = Some command
   /\ log' = (log ++ resolver_calls h language file)%list).
Proof. apply get_command_ok_iff. Qed.

(** X2. A command the resolver returns is not empty and ends with the path
    of the file. For a language whose file is run as it is, that path is
    absolute or starts with [./], so that it is never looked up along the
    search path; for any other language it is the path as given (with the
    separators of the host). *)
Theorem X2_command_runs_the_file (h : Host) (language file : string)
    (log log' : list fs_call) (command : list string) :
  get_command h language file log = (Ok command, log') ->
  command <> []
  /\ last command EmptyString = launch_path h language file
  /\ (if is_compiled language
      then path_isabs h (native_path h file) = true
           \/ Py.startswith "./" (launch_path h language file) = true
      else launch_path h language file = native_path h file).
Proof.
  intros H. apply get_command_ok_iff in H as (_ & _ & _ & _ & Hcmd & _).
  destruct (lang_map_command _ _ _ _ Hcmd) as [Hne Hlast].
  repeat split; try assumption.
  unfold launch_path. destruct (is_compiled language); [|reflexivity].
  cbn [andb].
  destruct (path_isabs h (native_path h file)); [now left|].
  destruct (Py.startswith "./" (native_path h file)) eqn:Hdot; cbn [negb andb].
  - right. exact Hdot.
  - right. unfold Py.startswith. simpl.
    destruct (native_path h file); reflexivity.
Qed.

Lemma X2_command_runs_the_file_witness :
  ["./tool"] <> []
  /\ last ["./tool"] EmptyString = launch_path (Fixture.posix ["tool"]) "Rust" "tool"
  /\ (if is_compiled "Rust"
      then path_isabs (Fixture.posix ["tool"]) (native_path (Fixture.posix ["tool"]) "tool") = true
           \/ Py.startswith "./" (launch_path (Fixture.posix ["tool"]) "Rust" "tool") = true
      else launch_path (Fixture.posix ["tool"]) "Rust" "tool"
           = native_path (Fixture.posix ["tool"]) "tool").
Proof.
  exact (X2_command_runs_the_file (Fixture.posix ["tool"]) "Rust" "tool" []
           [Call_exists "tool"; Call_isfile "tool"; Call_access_X "tool"]
           ["./tool"] eq_refl).
Defined.

(** X3. The language is matched without regard to case: two identifiers
    with the same upper-case form resolve to the same command, with the same
    file system calls. *)
Theorem X3_language_case_insensitive (h : Host) (language language' file : string)
    (log log' : list fs_call) (command : list string) :
  Py.upper language = Py.upper language' ->
  get_command h language file log = (Ok command, log') ->
  get_command h language' file log = (Ok command, log').
Proof.
  intros Hup H. apply get_command_ok_iff. apply get_command_ok_iff in H.
  unfold extension_accepted, access_granted, launch_path, resolver_calls,
    access_call, is_compiled in *.
  rewrite <- Hup. exact H.
Qed.

Lemma X3_language_case_insensitive_witness :
  get_command (Fixture.posix ["worker.py"]) "PyThOn" "worker.py" [] =
    (Ok ["python"; "worker.py"],
     [Call_exists "worker.py"; Call_isfile "worker.py"; Call_access_R "worker.py"]).
Proof.
  exact (X3_language_case_insensitive (Fixture.posix ["worker.py"])
           "python" "PyThOn" "worker.py" [] _ _ eq_refl eq_refl).
Defined.

(** X4. The resolver makes its file system calls on the one path, in the
    order existence, kind, permission, and stops at the first check that
    fails: none when the extension is rejected, the first alone when the
    path does not exist, the first two when it is not a regular file, and
    all three otherwise. What was logged before stays. *)
Theorem X4_file_system_calls (h : Host) (language file : string)
    (log : list fs_call) :
  snd (get_command h language file log)
  = (log ++ firstn (checks_made h language file)
              (resolver_calls h language file))%list.
Proof.
  unfold checks_made.
  destruct (extension_accepted h language file) eqn:Hext; cbn [negb].
  - rewrite (get_command_checks h language file log Hext). cbv zeta.
    destruct (negb (path_exists h (native_path h file))); [reflexivity|].
    destruct (negb (path_isfile h (native_path h file))); [reflexivity|].
    destruct (negb (access_granted h language file)); reflexivity.
  - unfold extension_accepted in Hext.
    destruct (table_find extension_map (Py.upper language)) as [valid|] eqn:Hlang;
      [|discriminate].
    rewrite (get_command_rejected h language file valid log Hlang Hext).
    cbn. now rewrite app_nil_r.
Qed.

(** X5. Whatever the resolver raises is reported as a file error: the
    status is false, the one error is [Error: ] followed by the text of the
    exception, and the one warning is the one about the target file. It is
    never reported as an unexpected error. *)
Theorem X5_resolver_failure_reported (w : World) (self : Self) (u o : bool)
    (d : pyobj) (language file : string) (e : exn) :
  fst (get_command (host w) language file []) = Raise e ->
  self_response (request w self u o d language file) =
    Some {| request_status := Some false; data := JNull; optionalOutput := o;
            isUnique := JBool u;
            warnings := [warning_target_file];
            errors := [JStr ("Error: " ++ exn_str e)] |}.
Proof.
  intros H.
  assert (Hcls : caught_as_file_error (exn_cls e) = true).
  { destruct (get_command (host w) language file []) as [r log'] eqn:Hg.
    cbn [fst] in H. subst r. eapply get_command_raises. exact Hg. }
  unfold request. rewrite (resolver_failure_raised w u o d language file e H).
  unfold handle. rewrite Hcls. reflexivity.
Qed.

Lemma X5_resolver_failure_reported_witness :
  self_response
    (request Scenario.silent __init__ true true (Serializable JNull)
       "python" "absent.py") =
    Some {| request_status := Some false; data := JNull; optionalOutput := true;
            isUnique := JBool true;
            warnings := [warning_target_file];
            errors := [JStr "Error: File not found: absent.py"] |}.
Proof.
  exact (X5_resolver_failure_reported Scenario.silent __init__ true true
           (Serializable JNull) "python" "absent.py"
           (Exn FileNotFoundError "File not found: absent.py") eq_refl).
Defined.

(** * Further properties of the caller bridge *)

Section CollectLemmas.

Variables (c : Codec) (key : string).

Lemma collect_line_step (acc out : list dict) (line : string) :
  collect_line c key acc line = Ok out ->
  out = acc
  \/ exists d, out = (acc ++ [d])%list /\ key_matches key d = true
               /\ json_loads c line = Ok (JObj d).
Proof.
  unfold collect_line, key_matches.
  destruct (negb (truthy (JStr (Py.strip line)))); [intros [= <-]; now left|].
  destruct (json_loads c line) as [[| | | | | |d]|e];
    try (intros [= <-]; now left).
  - destruct (eq_str (dict_get d "key") key || is_None (dict_get d "key")) eqn:Hk;
      intros [= <-]; [right; now exists d | now left].
  - destruct (exn_cls e); try discriminate. intros [= <-]. now left.
Qed.

Lemma collect_line_ignored (acc : list dict) (line : string) :
  ignored c key line = true -> collect_line c key acc line = Ok acc.
Proof.
  unfold ignored, collect_line, key_matches.
  destruct (negb (truthy (JStr (Py.strip line)))); [reflexivity|].
  destruct (json_loads c line) as [[| | | | | |d]|e]; try reflexivity.
  - destruct (eq_str (dict_get d "key") key || is_None (dict_get d "key"));
      [discriminate|reflexivity].
  - destruct (exn_cls e); (reflexivity || discriminate).
Qed.

Lemma collect_app (before after : list string) (acc : list dict) :
  collect c key (before ++ after) acc
  = bind (collect c key before acc) (collect c key after).
Proof.
  revert acc. induction before as [|line rest IH]; intros acc; simpl.
  - reflexivity.
  - destruct (collect_line c key acc line) as [acc'|e]; cbn [bind];
      [apply IH | reflexivity].
Qed.

Lemma collect_keys (lines : list string) (acc out : list dict) :
  collect c key lines acc = Ok out ->
  Forall (fun d => key_matches key d = true) acc ->
  Forall (fun d => key_matches key d = true) out.
Proof.
  revert acc. induction lines as [|line rest IH]; intros acc; simpl.
  - now intros [= <-].
  - destruct (collect_line c key acc line) as [acc'|e] eqn:Hline; cbn [bind];
      [|discriminate].
    intros Hrest Hacc. apply (IH acc' Hrest).
    destruct (collect_line_step acc acc' line Hline) as [->|(d & -> & Hd & _)].
    + exact Hacc.
    + apply Forall_app. split; [exact Hacc | now constructor].
Qed.

End CollectLemmas.

Section CallerLemmas.

Lemma exchange_accepted (w : World) (u o : bool) (d : pyobj)
    (language file : string) (lines : list dict) :
  exchange w u o d language file = Ok (Accepted lines) ->
  exists text,
    collect (codec w) (uuid4_hex w) (Py.split "010"%char (Py.strip text)) []
    = Ok lines.
Proof.
  unfold exchange.
  destruct (fst (get_command (host w) language file [])) as [command|];
    cbn [bind]; [|discriminate].
  destruct (Popen w command) as [process|]; cbn [bind]; [|discriminate].
  destruct (dumps_request (codec w) (uuid4_hex w) o u d) as [input|];
    cbn [bind]; [|discriminate].
  destruct (process input) as [done|]; cbn [bind]; [|discriminate].
  destruct (negb (returncode done =? 0)%Z); [discriminate|].
  destruct (collect _ _ _ _) as [ls|] eqn:Hc; cbn [bind]; [|discriminate].
  intros [= <-]. now exists (stdout_text done).
Qed.

Lemma aggregate_echo (response r : Response) (o : bool) (ls : list dict) :
  aggregate response o ls = Ok r ->
  optionalOutput r = optionalOutput response
  /\ (ls = [] -> isUnique r = isUnique response /\ data r = JNull
                 /\ request_status r <> Some true).
Proof.
  unfold aggregate. destruct ls as [|first rest].
  - destruct o; intros [= <-]; repeat split; discriminate.
  - destruct (scan_failure (first :: rest) false) as [failure|]; cbn [bind];
      [|discriminate].
    destruct (dict_getitem first "isUnique") as [x|]; cbn [bind]; [|discriminate].
    match goal with
    | |- context [fold_errors ?l ?acc] =>
        destruct (fold_errors l acc) as [errs|]; cbn [bind]; [|discriminate]
    end.
    destruct (fold_data (first :: rest) []) as [data_list|]; cbn [bind];
      [|discriminate].
    destruct (truthy _); [destruct (_ =? _)%nat|];
      intros [= <-]; destruct failure; (split; [reflexivity | discriminate]).
Qed.

Lemma scan_failure_missing (ls : list dict) (failure : bool) (i : dict) :
  In i ls ->
  dict_find i "request_status" = None ->
  scan_failure ls failure = Raise (Exn KeyError "'request_status'").
Proof.
  revert failure. induction ls as [|a rest IH]; intros failure Hin Hnone.
  - contradiction.
  - simpl. unfold dict_getitem at 1.
    destruct (dict_find a "request_status") as [s|] eqn:Ha; cbn [bind].
    + destruct Hin as [->|Hin]; [congruence|]. now apply IH.
    + reflexivity.
Qed.

Lemma all_truthy_not_failed (ls : list dict) :
  negb (existsb line_failed ls)
  = forallb (fun i => truthy (dict_get i "request_status")) ls.
Proof.
  induction ls as [|i rest IH]; simpl; [reflexivity|].
  rewrite negb_orb, IH. unfold line_failed. now rewrite negb_involutive.
Qed.

End CallerLemmas.

(** X6. Every line kept for the aggregation carries the key of this
    request or no key at all (an absent or null one): a line with the key
    of another request never takes part. *)
Theorem X6_accepted_lines_match_key (w : World) (u o : bool) (d : pyobj)
    (language file : string) (lines : list dict) :
  exchange w u o d language file = Ok (Accepted lines) ->
  Forall (fun i => key_matches (uuid4_hex w) i = true) lines.
Proof.
  intros Hx. destruct (exchange_accepted w u o d language file lines Hx) as [text Hc].
  eapply collect_keys; [exact Hc | constructor].
Qed.

Lemma X6_accepted_lines_match_key_witness :
  Forall (fun i => key_matches Scenario.key i = true)
    [Scenario.emitted_dict (JInt 1) false;
     Scenario.emitted_dict (JInt 2) false;
     Scenario.emitted_dict (JInt 3) false].
Proof.
  exact (X6_accepted_lines_match_key Scenario.three false true
           (Serializable JNull) "python" Scenario.script _ eq_refl).
Defined.

(** X7. A line of the child's output that is blank, is not JSON, is JSON
    but not a dictionary, or carries the key of another request can be
    taken out of the output without any effect on the lines kept. *)
Theorem X7_noise_is_passed_over (c : Codec) (key : string)
    (before after : list string) (line : string) (acc : list dict) :
  ignored c key line = true ->
  collect c key (before ++ line :: after) acc
  = collect c key (before ++ after) acc.
Proof.
  intros Hline. rewrite !collect_app.
  destruct (collect c key before acc) as [acc'|e]; cbn [bind]; [|reflexivity].
  simpl. now rewrite (collect_line_ignored c key acc' line Hline).
Qed.

Lemma X7_noise_is_passed_over_witness :
  collect (Fixture.codec_of [Scenario.emitted (JInt 1) true]) Scenario.key
    ([Fixture.dumps (Scenario.emitted (JInt 1) true)]
       ++ "debug: started" :: [Fixture.dumps (Scenario.emitted (JInt 1) true)]) []
  = collect (Fixture.codec_of [Scenario.emitted (JInt 1) true]) Scenario.key
      ([Fixture.dumps (Scenario.emitted (JInt 1) true)]
         ++ [Fixture.dumps (Scenario.emitted (JInt 1) true)]) [].
Proof.
  exact (X7_noise_is_passed_over
           (Fixture.codec_of [Scenario.emitted (JInt 1) true]) Scenario.key
           [Fixture.dumps (Scenario.emitted (JInt 1) true)]
           [Fixture.dumps (Scenario.emitted (JInt 1) true)]
           "debug: started" [] eq_refl).
Defined.

(** X8. The [optionalOutput] of a response is always the argument of the
    call, on every path; and so is its [isUnique] as long as the aggregation
    did not get a line to take it from. *)
Theorem X8_flags_echoed (w : World) (self : Self) (u o : bool) (d : pyobj)
    (language file : string) :
  exists r,
    self_response (request w self u o d language file) = Some r
    /\ optionalOutput r = o
    /\ ((forall first rest,
           exchange w u o d language file <> Ok (Accepted (first :: rest))) ->
        isUnique r = JBool u).
Proof.
  unfold request.
  destruct (exchange w u o d language file) as [x|e] eqn:Hx.
  - rewrite (request_by_exchange w self u o d language file _ Hx).
    destruct x as [done|ls].
    + eexists. split; [reflexivity|]. rewrite exit_failure_fields.
      split; reflexivity.
    + destruct (aggregate (initial_response u o) o ls) as [r|e] eqn:Ha.
      * eexists. split; [reflexivity|].
        destruct (aggregate_echo _ _ _ _ Ha) as [Ho Hempty].
        split; [exact Ho|].
        intros Hnone. destruct ls as [|first rest].
        -- now destruct (Hempty eq_refl) as (-> & _).
        -- exfalso. now apply (Hnone first rest).
      * eexists. split; [reflexivity|]. unfold handle.
        destruct (caught_as_file_error (exn_cls e)); split; reflexivity.
  - assert (Hbody : request_body w u o d language file = Raise e)
      by (unfold request_body; now rewrite Hx).
    rewrite Hbody. eexists. split; [reflexivity|]. unfold handle.
    destruct (caught_as_file_error (exn_cls e)); split; reflexivity.
Qed.

(** X9. [get_data] gives something else than [None] only after a call
    whose child exited with 0 and had at least one line kept, and whose
    response has the status true; it is then the [data] of the response.
    After any failure, and after a call without output, it gives [None]. *)
Theorem X9_get_data_only_on_success (w : World) (self : Self) (u o : bool)
    (d : pyobj) (language file : string) :
  get_data (request w self u o d language file) <> JNull ->
  exists first rest r,
    exchange w u o d language file = Ok (Accepted (first :: rest))
    /\ self_response (request w self u o d language file) = Some r
    /\ request_status r = Some true
    /\ get_data (request w self u o d language file) = data r.
Proof.
  unfold get_data, request.
  destruct (exchange w u o d language file) as [x|e] eqn:Hx.
  - rewrite (request_by_exchange w self u o d language file _ Hx).
    destruct x as [done|ls].
    + rewrite exit_failure_fields. cbn. congruence.
    + destruct (aggregate (initial_response u o) o ls) as [r|e] eqn:Ha.
      * cbn [self_response]. destruct ls as [|first rest].
        -- destruct (aggregate_echo _ _ _ _ Ha) as [_ Hempty].
           destruct (Hempty eq_refl) as (_ & _ & Hst).
           destruct (request_status r) as [[|]|]; congruence.
        -- intros Hdata. exists first, rest, r.
           destruct (request_status r) as [[|]|]; try congruence.
           repeat split.
      * cbn [self_response]. unfold handle.
        destruct (caught_as_file_error (exn_cls e)); cbn; congruence.
  - assert (Hbody : request_body w u o d language file = Raise e)
      by (unfold request_body; now rewrite Hx).
    rewrite Hbody. cbn [self_response]. unfold handle.
    destruct (caught_as_file_error (exn_cls e)); cbn; congruence.
Qed.

Lemma X9_get_data_only_on_success_witness :
  exists first rest r,
    exchange Scenario.three false true (Serializable JNull)
      "python" Scenario.script = Ok (Accepted (first :: rest))
    /\ self_response
         (request Scenario.three __init__ false true (Serializable JNull)
            "python" Scenario.script) = Some r
    /\ request_status r = Some true
    /\ get_data
         (request Scenario.three __init__ false true (Serializable JNull)
            "python" Scenario.script) = data r.
Proof.
  apply (X9_get_data_only_on_success Scenario.three __init__ false true
           (Serializable JNull) "python" Scenario.script).
  vm_compute. discriminate.
Defined.

(** X10. When the lines kept are response lines and their number is not at
    odds with the flag of the first (the flag is false, or there is one
    line), the status of the response is true exactly when the status of
    every line counts as true, its errors are the errors of the lines, line
    after line in the order of each line, and it has no warning. *)
Theorem X10_status_and_errors_of_lines (w : World) (self : Self) (u o : bool)
    (d : pyobj) (language file : string) (first : dict) (rest : list dict) :
  exchange w u o d language file = Ok (Accepted (first :: rest)) ->
  forallb is_ResponseLine (first :: rest) = true ->
  truthy (line_isUnique first) = false \/ rest = [] ->
  exists r,
    self_response (request w self u o d language file) = Some r
    /\ request_status r
       = Some (forallb (fun i => truthy (dict_get i "request_status"))
                 (first :: rest))
    /\ errors r = flat_map line_errors (first :: rest)
    /\ warnings r = [].
Proof.
  intros Hx Hwf Hcount.
  rewrite (request_lines w self u o d language file first rest Hx Hwf).
  eexists. split; [reflexivity|].
  rewrite <- all_truthy_not_failed. unfold aggregate_of.
  destruct (truthy (line_isUnique first)).
  - destruct Hcount as [Hf| ->]; [discriminate|]. repeat split.
  - repeat split.
Qed.

Lemma X10_status_and_errors_of_lines_witness :
  exists r,
    self_response
      (request Scenario.three __init__ false true (Serializable JNull)
         "python" Scenario.script) = Some r
    /\ request_status r = Some true
    /\ errors r = []
    /\ warnings r = [].
Proof.
  exact (X10_status_and_errors_of_lines Scenario.three __init__ false true
           (Serializable JNull) "python" Scenario.script
           (Scenario.emitted_dict (JInt 1) false)
           [Scenario.emitted_dict (JInt 2) false;
            Scenario.emitted_dict (JInt 3) false]
           eq_refl eq_refl (or_introl eq_refl)).
Defined.

(** X11. A dictionary without the entry [request_status] among the lines
    kept (the empty dictionary is one, and it is kept since it has no key)
    makes the aggregation raise a [KeyError]: whatever the other lines say,
    the response is the one of an unexpected error. *)
Theorem X11_line_without_status (w : World) (self : Self) (u o : bool)
    (d : pyobj) (language file : string) (lines : list dict) (i : dict) :
  exchange w u o d language file = Ok (Accepted lines) ->
  In i lines ->
  dict_find i "request_status" = None ->
  self_response (request w self u o d language file) =
    Some {| request_status := Some false; data := JNull; optionalOutput := o;
            isUnique := JBool u; warnings := [];
            errors := [JStr "Unexpected error: 'request_status'"] |}.
Proof.
  intros Hx Hin Hnone. unfold request.
  rewrite (request_by_exchange w self u o d language file _ Hx).
  unfold aggregate. destruct lines as [|first rest]; [contradiction|].
  rewrite (scan_failure_missing (first :: rest) false i Hin Hnone).
  reflexivity.
Qed.

Lemma X11_line_without_status_witness :
  self_response
    (request Scenario.empty_dict __init__ true true (Serializable JNull)
       "python" Scenario.script) =
    Some {| request_status := Some false; data := JNull; optionalOutput := true;
            isUnique := JBool true; warnings := [];
            errors := [JStr "Unexpected error: 'request_status'"] |}.
Proof.
  exact (X11_line_without_status Scenario.empty_dict __init__ true true
           (Serializable JNull) "python" Scenario.script [[]] []
           eq_refl (or_introl eq_refl) eq_refl).
Defined.

(** * Further properties of the callee bridge *)

Section CalleeLemmas.

Import OutputManager.

Variable c : Codec.

(** One emission of a manager that holds a request *)
Lemma output_ready (s : State) (k u val : json) :
  ready s k u ->
  let ok := permitted (unique_state s) u in
  let errs :=
    if ok then errors s
    else (errors s ++ [error_out_of_bound c (unique_state s)])%list in
  exists s',
    output c val s = (Ok tt, s')
    /\ channel s'
       = (channel s
            ++ [json_dumps c
                  (response_of k (JBool ok) val (optional s) u errs (warnings s));
                String "010"%char EmptyString])%list
    /\ errors s' = errs
    /\ warnings s' = warnings s
    /\ optional s' = optional s
    /\ unique_state s' = u
    /\ sys_stdout s' = StringIO
    /\ ready s' k u.
Proof.
  destruct s as [saved text req dat status opt ustate ierr errs0 warns out inp chan].
  intros (dd & Hreq & Hk & Hu & Hsaved). cbn [request original_stdout] in *.
  subst req.
  assert (Htruthy : truthy (JObj dd) = true)
    by (destruct dd; [discriminate Hk | reflexivity]).
  assert (Hkey : getitem_str (JObj dd) "key" = Ok k)
    by (unfold getitem_str, dict_getitem; now rewrite Hk).
  assert (Hflag : getitem_str (JObj dd) "isUnique" = Ok u)
    by (unfold getitem_str, dict_getitem; now rewrite Hu).
  unfold permitted, error_out_of_bound, response_of, ready.
  cbn [unique_state errors warnings optional channel].
  unfold output, write, response_line, restore_stdout, stdout_write, modify, lift,
    bindM, get, ret.
  cbn [request unique_state]. rewrite Htruthy. cbn [negb].
  destruct (truthy ustate); cbn [negb orb];
    [rewrite Hflag; destruct (truthy u); cbn [negb]|];
    (destruct saved as [[|]|]; [|exfalso; now apply Hsaved|]);
    repeat (cbn -[truthy getitem_str app]; rewrite ?Htruthy, ?Hkey, ?Hflag);
    (eexists; split; [reflexivity|]);
    cbn -[truthy getitem_str app]; rewrite <- app_assoc;
    repeat split; try assumption;
    exists dd; repeat split; assumption.
Qed.

(** A run of emissions of a manager that holds a request *)
Lemma outputs_ready (vals : list json) (s : State) (k u : json) :
  ready s k u ->
  channel (outputs c vals s)
  = (channel s
       ++ emissions c k (optional s) u (warnings s) (errors s) (unique_state s)
            vals)%list
  /\ fst (emit_all c vals s) = Ok tt
  /\ snd (emit_all c vals s) = outputs c vals s.
Proof.
  revert s. induction vals as [|v rest IH]; intros s Hready.
  - cbn. now rewrite app_nil_r.
  - destruct (output_ready s k u v Hready)
      as (s' & Hout & Hchan & Herrs & Hwarns & Hopt & Hustate & _ & Hready').
    cbn [outputs emit_all emissions]. unfold bindM. rewrite Hout.
    destruct (IH s' Hready') as (IHc & IHf & IHs).
    rewrite IHc, Hchan, Herrs, Hwarns, Hopt, Hustate.
    rewrite <- app_assoc. cbn [app]. repeat split; assumption.
Qed.

End CalleeLemmas.

(** X12. Whether it succeeds or raises, [init] reads all of the standard
    input, saves the stream that [sys.stdout] was bound to and binds it to a
    buffer, and writes nothing on the output channel; what the target prints
    from then on does not reach the channel. *)
Theorem X12_init_shields_the_channel (c : Codec) (s : OutputManager.State)
    (text : string) :
  let s' := snd (OutputManager.init c s) in
  OutputManager.sys_stdout s' = OutputManager.StringIO
  /\ OutputManager.original_stdout s' = Some (OutputManager.sys_stdout s)
  /\ OutputManager.stdin s' = EmptyString
  /\ OutputManager.request_text s' = Some (OutputManager.stdin s)
  /\ OutputManager.channel s' = OutputManager.channel s
  /\ OutputManager.channel (snd (OutputManager.stdout_write text s'))
     = OutputManager.channel s.
Proof.
  destruct s as [saved txt req dat status opt ustate ierr errs0 warns out inp chan].
  unfold OutputManager.init, OutputManager.bindM, OutputManager.modify,
    OutputManager.lift, OutputManager.stdin_read, OutputManager.stdout_write.
  cbn -[getitem_str].
  destruct (json_loads c inp) as [v|e]; [|cbn; repeat split].
  destruct (getitem_str v "data") as [x|e]; [|cbn; repeat split].
  destruct (getitem_str v "optionalOutput") as [y|e]; cbn; repeat split.
Qed.

(** X13. When [init] returns, the standard input was a JSON document with
    the entries [data] and [optionalOutput]: the document is the request
    stored, the two entries are [data] and the optional flag, and the errors
    and warnings accumulated, the fault flag, the status and the mark of a
    first emission are reset. The entries [key] and [isUnique] are not
    looked at. *)
Theorem X13_init_success (c : Codec) (s : OutputManager.State) :
  fst (OutputManager.init c s) = Ok tt ->
  let s' := snd (OutputManager.init c s) in
  json_loads c (OutputManager.stdin s) = Ok (OutputManager.request s')
  /\ getitem_str (OutputManager.request s') "data" = Ok (OutputManager.data s')
  /\ getitem_str (OutputManager.request s') "optionalOutput"
     = Ok (OutputManager.optional s')
  /\ OutputManager.errors s' = []
  /\ OutputManager.warnings s' = []
  /\ OutputManager.init_error s' = JNull
  /\ OutputManager.request_status s' = JNull
  /\ OutputManager.unique_state s' = JNull.
Proof.
  destruct s as [saved txt req dat status opt ustate ierr errs0 warns out inp chan].
  unfold OutputManager.init, OutputManager.bindM, OutputManager.modify,
    OutputManager.lift, OutputManager.stdin_read.
  cbn -[getitem_str].
  destruct (json_loads c inp) as [v|e]; [|discriminate].
  destruct (getitem_str v "data") as [x|e] eqn:Hx; [|discriminate].
  destruct (getitem_str v "optionalOutput") as [y|e] eqn:Hy; [|discriminate].
  intros _. cbn -[getitem_str]. repeat split; assumption.
Qed.

Lemma X13_init_success_witness :
  let s' :=
    snd (OutputManager.init Scenario.callee_codec
           (OutputManager.class_definition (Fixture.dumps Scenario.request_n2))) in
  json_loads Scenario.callee_codec
    (OutputManager.stdin
       (OutputManager.class_definition (Fixture.dumps Scenario.request_n2)))
  = Ok (OutputManager.request s')
  /\ getitem_str (OutputManager.request s') "data" = Ok (OutputManager.data s')
  /\ getitem_str (OutputManager.request s') "optionalOutput"
     = Ok (OutputManager.optional s')
  /\ OutputManager.errors s' = []
  /\ OutputManager.warnings s' = []
  /\ OutputManager.init_error s' = JNull
  /\ OutputManager.request_status s' = JNull
  /\ OutputManager.unique_state s' = JNull.
Proof.
  exact (X13_init_success Scenario.callee_codec
           (OutputManager.class_definition (Fixture.dumps Scenario.request_n2))
           eq_refl).
Defined.

(** X14. A run of emissions by a manager that holds a request with a key
    and a flag never raises and writes one line per emission, in order. An
    emission is within bounds when it is the first or the flag of the
    request is false: its line has the status true and the errors
    accumulated so far. Any other has the status false and one more error,
    the one of the emission out of bounds, and its value is written all the
    same. *)
Theorem X14_emissions (c : Codec) (s : OutputManager.State) (k u : json)
    (vals : list json) :
  ready s k u ->
  OutputManager.channel (OutputManager.outputs c vals s)
  = (OutputManager.channel s
       ++ emissions c k (OutputManager.optional s) u (OutputManager.warnings s)
            (OutputManager.errors s) (OutputManager.unique_state s) vals)%list
  /\ fst (emit_all c vals s) = Ok tt.
Proof.
  intros Hready.
  destruct (outputs_ready c vals s k u Hready) as (H1 & H2 & _). now split.
Qed.

Lemma X14_emissions_witness :
  let s :=
    snd (OutputManager.init Scenario.callee_codec
           (OutputManager.class_definition (Fixture.dumps Scenario.request_n2))) in
  OutputManager.channel
    (OutputManager.outputs Scenario.callee_codec [JInt 1; JInt 2] s)
  = ([] ++ emissions Scenario.callee_codec (JStr Scenario.key) (JBool true)
             (JBool true) [] [] JNull [JInt 1; JInt 2])%list
  /\ fst (emit_all Scenario.callee_codec [JInt 1; JInt 2] s) = Ok tt.
Proof.
  refine (X14_emissions Scenario.callee_codec
            (snd (OutputManager.init Scenario.callee_codec
                    (OutputManager.class_definition
                       (Fixture.dumps Scenario.request_n2))))
            (JStr Scenario.key) (JBool true) [JInt 1; JInt 2] _).
  eexists. repeat split; discriminate.
Defined.

Section EmissionLemmas.

Variable c : Codec.

Lemma emissions_unbounded (k opt u : json) (warns errs : list string)
    (unique_state : json) (vals : list json) :
  truthy u = false ->
  emissions c k opt u warns errs unique_state vals
  = flat_map
      (fun v =>
         [json_dumps c (response_of k (JBool true) v opt u errs warns);
          String "010"%char EmptyString])
      vals.
Proof.
  intros Hu. revert unique_state.
  induction vals as [|v rest IH]; intros unique_state; cbn [emissions flat_map].
  - reflexivity.
  - unfold permitted. rewrite Hu, orb_true_r. cbn [app]. now rewrite IH.
Qed.

End EmissionLemmas.

(** X15. Under a request whose flag [isUnique] is false, any number of
    emissions is within bounds: each value is written on a line of its own
    with the status true, in the order of the calls, and the errors
    accumulated stay as they are. *)
Theorem X15_emissions_without_bound (c : Codec) (s : OutputManager.State)
    (k u : json) (vals : list json) :
  ready s k u ->
  truthy u = false ->
  OutputManager.channel (OutputManager.outputs c vals s)
  = (OutputManager.channel s
       ++ flat_map
            (fun v =>
               [json_dumps c
                  (response_of k (JBool true) v (OutputManager.optional s) u
                     (OutputManager.errors s) (OutputManager.warnings s));
                String "010"%char EmptyString])
            vals)%list.
Proof.
  intros Hready Hu.
  destruct (outputs_ready c vals s k u Hready) as (H & _).
  rewrite H. now rewrite emissions_unbounded.
Qed.

Lemma X15_emissions_without_bound_witness :
  let c := Fixture.codec_of [Scenario.request_with_flag false] in
  let s :=
    snd (OutputManager.init c
           (OutputManager.class_definition
              (Fixture.dumps (Scenario.request_with_flag false)))) in
  OutputManager.channel (OutputManager.outputs c [JInt 1; JInt 2] s)
  = ([] ++ flat_map
             (fun v =>
                [json_dumps c
                   (response_of (JStr Scenario.key) (JBool true) v (JBool true)
                      (JBool false) [] []);
                 String "010"%char EmptyString])
             [JInt 1; JInt 2])%list.
Proof.
  refine (X15_emissions_without_bound
            (Fixture.codec_of [Scenario.request_with_flag false])
            (snd (OutputManager.init
                    (Fixture.codec_of [Scenario.request_with_flag false])
                    (OutputManager.class_definition
                       (Fixture.dumps (Scenario.request_with_flag false)))))
            (JStr Scenario.key) (JBool false) [JInt 1; JInt 2] _ eq_refl).
  eexists. repeat split; discriminate.
Defined.

(** X16. Once a manager whose request has a true flag [isUnique] has
    emitted, every further emission is out of bounds: its value is written
    all the same, on one line with the status false and with one more error
    than before, and the manager stays in that condition. *)
Theorem X16_emission_out_of_bounds (c : Codec) (s : OutputManager.State)
    (k u val : json) :
  ready s k u ->
  truthy u = true ->
  truthy (OutputManager.unique_state s) = true ->
  exists s',
    OutputManager.output c val s = (Ok tt, s')
    /\ OutputManager.channel s'
       = (OutputManager.channel s
            ++ [json_dumps c
                  (response_of k (JBool false) val (OutputManager.optional s) u
                     (OutputManager.errors s
                        ++ [error_out_of_bound c (OutputManager.unique_state s)])%list
                     (OutputManager.warnings s));
                String "010"%char EmptyString])%list
    /\ OutputManager.errors s'
       = (OutputManager.errors s
            ++ [error_out_of_bound c (OutputManager.unique_state s)])%list
    /\ truthy (OutputManager.unique_state s') = true
    /\ ready s' k u.
Proof.
  intros Hready Hu Hstate.
  destruct (output_ready c s k u val Hready)
    as (s' & Hout & Hchan & Herrs & _ & _ & Hustate & _ & Hready').
  unfold permitted in Hchan, Herrs. rewrite Hu, Hstate in Hchan, Herrs.
  cbn [negb orb] in Hchan, Herrs.
  exists s'. repeat split; try assumption. now rewrite Hustate.
Qed.

Lemma X16_emission_out_of_bounds_witness :
  let c := Scenario.callee_codec in
  let s :=
    OutputManager.outputs c [JInt 1]
      (snd (OutputManager.init c
              (OutputManager.class_definition (Fixture.dumps Scenario.request_n2)))) in
  exists s',
    OutputManager.output c (JInt 2) s = (Ok tt, s')
    /\ OutputManager.channel s'
       = (OutputManager.channel s
            ++ [json_dumps c
                  (response_of (JStr Scenario.key) (JBool false) (JInt 2)
                     (OutputManager.optional s) (JBool true)
                     (OutputManager.errors s
                        ++ [error_out_of_bound c (OutputManager.unique_state s)])%list
                     (OutputManager.warnings s));
                String "010"%char EmptyString])%list
    /\ OutputManager.errors s'
       = (OutputManager.errors s
            ++ [error_out_of_bound c (OutputManager.unique_state s)])%list
    /\ truthy (OutputManager.unique_state s') = true
    /\ ready s' (JStr Scenario.key) (JBool true).
Proof.
  refine (X16_emission_out_of_bounds Scenario.callee_codec
            (OutputManager.outputs Scenario.callee_codec [JInt 1]
               (snd (OutputManager.init Scenario.callee_codec
                       (OutputManager.class_definition
                          (Fixture.dumps Scenario.request_n2)))))
            (JStr Scenario.key) (JBool true) (JInt 2) _ eq_refl eq_refl).
  eexists. repeat split; discriminate.
Defined.

(** X17. A call of [output], in any state, either writes nothing on the
    output channel or appends exactly one serialised dictionary and the
    line feed after it; a call that raises has written nothing. *)
Theorem X17_whole_lines_only (c : Codec) (s : OutputManager.State) (val : json) :
  (OutputManager.channel (snd (OutputManager.output c val s))
   = OutputManager.channel s
   \/ exists line,
       OutputManager.channel (snd (OutputManager.output c val s))
       = (OutputManager.channel s
            ++ [json_dumps c (JObj line); String "010"%char EmptyString])%list)
  /\ (forall e,
        fst (OutputManager.output c val s) = Raise e ->
        OutputManager.channel (snd (OutputManager.output c val s))
        = OutputManager.channel s).
Proof.
  destruct s as [saved text req dat status opt ustate ierr errs0 warns out inp chan].
  unfold OutputManager.output, OutputManager.write, OutputManager.response_line,
    OutputManager.restore_stdout, OutputManager.stdout_write, OutputManager.modify,
    OutputManager.lift, OutputManager.bindM, OutputManager.get, OutputManager.ret.
  cbn -[truthy getitem_str app].
  repeat match goal with
         | |- context [truthy ?x] =>
             destruct (truthy x) eqn:?; cbn -[truthy getitem_str app]
         | |- context [getitem_str ?x ?k] =>
             destruct (getitem_str x k) eqn:?; cbn -[truthy getitem_str app]
         | |- context [match saved with _ => _ end] =>
             destruct saved as [[|]|]; cbn -[truthy getitem_str app]
         end;
    (split; [|intros exc Hexc; try discriminate Hexc; reflexivity]);
    first [ left; reflexivity
          | right; eexists; rewrite <- app_assoc; reflexivity ].
Qed.

(** X18. After an emission that returns, a manager that holds a request has
    bound [sys.stdout] to a buffer again: what the target prints between two
    emissions does not reach the channel. *)
Theorem X18_stdout_suppressed_again (c : Codec) (s : OutputManager.State)
    (val : json) (text : string) :
  truthy (OutputManager.request s) = true ->
  fst (OutputManager.output c val s) = Ok tt ->
  let s' := snd (OutputManager.output c val s) in
  OutputManager.sys_stdout s' = OutputManager.StringIO
  /\ OutputManager.channel (snd (OutputManager.stdout_write text s'))
     = OutputManager.channel s'.
Proof.
  destruct s as [saved txt req dat status opt ustate ierr errs0 warns out inp chan].
  cbn [OutputManager.request]. intros Hreq.
  unfold OutputManager.output, OutputManager.write, OutputManager.response_line,
    OutputManager.restore_stdout, OutputManager.stdout_write, OutputManager.modify,
    OutputManager.lift, OutputManager.bindM, OutputManager.get, OutputManager.ret.
  cbn -[truthy getitem_str app]. rewrite Hreq. cbn -[truthy getitem_str app].
  repeat match goal with
         | |- context [truthy ?x] =>
             destruct (truthy x) eqn:?; cbn -[truthy getitem_str app]
         | |- context [getitem_str ?x ?k] =>
             destruct (getitem_str x k) eqn:?; cbn -[truthy getitem_str app]
         | |- context [match saved with _ => _ end] =>
             destruct saved as [[|]|]; cbn -[truthy getitem_str app]
         end;
    intros H; try discriminate H; split; reflexivity.
Qed.

Lemma X18_stdout_suppressed_again_witness :
  let c := Scenario.callee_codec in
  let s :=
    snd (OutputManager.init c
           (OutputManager.class_definition (Fixture.dumps Scenario.request_n2))) in
  let s' := snd (OutputManager.output c (JInt 4) s) in
  OutputManager.sys_stdout s' = OutputManager.StringIO
  /\ OutputManager.channel (snd (OutputManager.stdout_write "debug" s'))
     = OutputManager.channel s'.
Proof.
  exact (X18_stdout_suppressed_again Scenario.callee_codec
           (snd (OutputManager.init Scenario.callee_codec
                   (OutputManager.class_definition
                      (Fixture.dumps Scenario.request_n2))))
           (JInt 4) "debug" eq_refl eq_refl).
Defined.

(** * Caller and callee together *)

Section LinesOfOutput.

(** The text of an output channel that holds the lines [ts], each followed
    by a line feed, splits back into [ts]. *)

Lemma append_empty (s : string) : s ++ EmptyString = s.
Proof. induction s as [|a r IH]; simpl; [reflexivity | now rewrite IH]. Qed.

Lemma append_is_empty (a b : string) :
  a ++ b = EmptyString -> a = EmptyString /\ b = EmptyString.
Proof. destruct a; simpl; [now split | discriminate]. Qed.

Lemma rstrip_app (a b : string) :
  Py.rstrip (a ++ b)
  = match Py.rstrip b with
    | EmptyString => Py.rstrip a
    | String x y => a ++ String x y
    end.
Proof.
  induction a as [|ch a' IH]; simpl.
  - destruct (Py.rstrip b); reflexivity.
  - rewrite IH. destruct (Py.rstrip b) as [|x y]; [reflexivity|].
    destruct a'; reflexivity.
Qed.

Lemma split_line (t rest : string) :
  existsb (Ascii.eqb "010"%char) (list_ascii_of_string t) = false ->
  Py.split "010"%char (t ++ String "010"%char rest)
  = t :: Py.split "010"%char rest.
Proof.
  induction t as [|ch t' IH];
    cbn [Py.split list_ascii_of_string existsb append]; intros H.
  - now rewrite Ascii.eqb_refl.
  - apply orb_false_elim in H as [Hch Ht].
    rewrite Ascii.eqb_sym, Hch. now rewrite (IH Ht).
Qed.

Lemma split_single (t : string) :
  existsb (Ascii.eqb "010"%char) (list_ascii_of_string t) = false ->
  Py.split "010"%char t = [t].
Proof.
  induction t as [|ch t' IH];
    cbn [Py.split list_ascii_of_string existsb]; intros H.
  - reflexivity.
  - apply orb_false_elim in H as [Hch Ht].
    rewrite Ascii.eqb_sym, Hch. now rewrite (IH Ht).
Qed.

Lemma one_line_parts (t : string) :
  one_line t = true ->
  (exists a r, t = String a r /\ Py.isspace a = false)
  /\ Py.rstrip t = t
  /\ existsb (Ascii.eqb "010"%char) (list_ascii_of_string t) = false.
Proof.
  unfold one_line. intros H.
  apply andb_prop in H as [H Hnl]. apply andb_prop in H as [Hstart Hend].
  apply negb_true_iff in Hnl. apply String.eqb_eq in Hend.
  repeat split; try assumption.
  destruct t as [|a r]; [discriminate|].
  exists a, r. split; [reflexivity | now apply negb_true_iff].
Qed.

Lemma one_line_strip (t : string) :
  one_line t = true -> Py.strip t = t /\ truthy (JStr t) = true.
Proof.
  intros H. destruct (one_line_parts t H) as ((a & r & -> & Ha) & Hr & _).
  split; [|reflexivity].
  unfold Py.strip. cbn [Py.lstrip]. rewrite Ha. exact Hr.
Qed.

(** The lines [ts], each followed by a line feed *)
Lemma concat_lines (ts : list string) :
  String.concat EmptyString
    (flat_map (fun t => [t; String "010"%char EmptyString]) ts)
  = fold_right (fun t acc => t ++ String "010"%char acc) EmptyString ts.
Proof.
  induction ts as [|t rest IH]; [reflexivity|].
  cbn [flat_map app fold_right]. rewrite <- IH.
  destruct rest as [|t' rest']; [reflexivity|].
  cbn [flat_map app String.concat]. reflexivity.
Qed.

Lemma rstrip_lines (t : string) (rest : list string) :
  Forall (fun t => one_line t = true) (t :: rest) ->
  Py.rstrip
    (fold_right (fun t acc => t ++ String "010"%char acc) EmptyString (t :: rest))
  = t ++ fold_right (fun x acc => String "010"%char (x ++ acc)) EmptyString rest.
Proof.
  revert t. induction rest as [|t' rest' IH]; intros t Hall.
  - cbn [fold_right]. rewrite rstrip_app. cbn.
    inversion Hall as [|? ? Ht _]; subst.
    destruct (one_line_parts t Ht) as (_ & Hr & _).
    now rewrite append_empty.
  - inversion Hall as [|? ? Ht Hrest]; subst.
    cbn [fold_right]. rewrite rstrip_app.
    change (Py.rstrip (String "010"%char
              (t' ++ String "010"%char
                 (fold_right (fun t acc => t ++ String "010"%char acc)
                    EmptyString rest'))))
      with (match Py.rstrip
                    (fold_right (fun t acc => t ++ String "010"%char acc)
                       EmptyString (t' :: rest')) with
            | EmptyString =>
                if Py.isspace "010"%char then EmptyString
                else String "010"%char EmptyString
            | String x y => String "010"%char (String x y)
            end).
    rewrite (IH t' Hrest).
    inversion Hrest as [|? ? Ht' _]; subst.
    destruct (one_line_parts t' Ht') as ((a & r & -> & _) & _ & _).
    reflexivity.
Qed.

Lemma split_lines (t : string) (rest : list string) :
  Forall (fun t => one_line t = true) (t :: rest) ->
  Py.split "010"%char
    (t ++ fold_right (fun x acc => String "010"%char (x ++ acc)) EmptyString rest)
  = t :: rest.
Proof.
  revert t. induction rest as [|t' rest' IH]; intros t Hall;
    inversion Hall as [|? ? Ht Hrest]; subst;
    destruct (one_line_parts t Ht) as (_ & _ & Hnl).
  - cbn [fold_right]. rewrite append_empty. now apply split_single.
  - cbn [fold_right]. rewrite (split_line _ _ Hnl). now rewrite (IH t' Hrest).
Qed.

Lemma lines_of_output (ts : list string) :
  Forall (fun t => one_line t = true) ts ->
  ts <> [] ->
  Py.split "010"%char
    (Py.strip
       (String.concat EmptyString
          (flat_map (fun t => [t; String "010"%char EmptyString]) ts)))
  = ts.
Proof.
  intros Hall Hne. destruct ts as [|t rest]; [contradiction|].
  rewrite concat_lines. unfold Py.strip.
  assert (Hl : Py.lstrip
                 (fold_right (fun t acc => t ++ String "010"%char acc)
                    EmptyString (t :: rest))
               = fold_right (fun t acc => t ++ String "010"%char acc)
                   EmptyString (t :: rest)).
  { inversion Hall as [|? ? Ht _]; subst.
    destruct (one_line_parts t Ht) as ((a & r & -> & Ha) & _ & _).
    cbn [fold_right append Py.lstrip]. now rewrite Ha. }
  rewrite Hl, (rstrip_lines t rest Hall). now apply split_lines.
Qed.

End LinesOfOutput.

Section RoundTrip.

Variable c : Codec.

Lemma collect_round_trip (key : string) (ds acc : list dict) :
  Forall (fun d => round_trips c (JObj d) /\ key_matches key d = true) ds ->
  collect c key (map (fun d => json_dumps c (JObj d)) ds) acc
  = Ok (acc ++ ds)%list.
Proof.
  intros Hall. revert acc.
  induction Hall as [|d rest ((Hload & Hline) & Hkey) _ IH]; intros acc.
  - cbn. now rewrite app_nil_r.
  - cbn [map collect]. unfold collect_line.
    destruct (one_line_strip _ Hline) as [-> ->]. cbn [negb].
    rewrite Hload. unfold key_matches in Hkey. rewrite Hkey. cbn [bind].
    rewrite IH. now rewrite <- app_assoc.
Qed.

Lemma flat_map_of_map {A B C} (f : B -> list C) (g : A -> B) (l : list A) :
  flat_map f (map g l) = flat_map (fun x => f (g x)) l.
Proof. induction l as [|x r IH]; simpl; [reflexivity | now rewrite IH]. Qed.

(** [init] on the request of a caller *)
Lemma init_on_request (key : string) (o u : bool) (j : json) (text : string) :
  json_loads c text = Ok (request_of key o u j) ->
  exists s,
    OutputManager.init c (OutputManager.class_definition text) = (Ok tt, s)
    /\ ready s (JStr key) (JBool u)
    /\ OutputManager.channel s = []
    /\ OutputManager.optional s = JBool o
    /\ OutputManager.errors s = []
    /\ OutputManager.warnings s = []
    /\ OutputManager.unique_state s = JNull.
Proof.
  intros Hload.
  unfold OutputManager.init, OutputManager.bindM, OutputManager.modify,
    OutputManager.lift, OutputManager.stdin_read.
  cbn [OutputManager.class_definition OutputManager.stdin
       OutputManager.set_original_stdout OutputManager.set_sys_stdout
       OutputManager.set_stdin OutputManager.set_request_text
       OutputManager.sys_stdout].
  rewrite Hload. cbn.
  eexists. split; [reflexivity|]. cbn.
  repeat split. eexists. cbn. repeat split. discriminate.
Qed.

(** What the target script prints when its emissions write the lines of
    [ds] *)
Lemma target_script_prints (vals : list json) (key : string) (o u : bool)
    (j : json) (ds : list dict) :
  json_loads c (json_dumps c (request_of key o u j)) = Ok (request_of key o u j) ->
  emissions c (JStr key) (JBool o) (JBool u) [] [] JNull vals
  = flat_map (fun t => [t; String "010"%char EmptyString])
      (map (fun d => json_dumps c (JObj d)) ds) ->
  target_script c vals (json_dumps c (request_of key o u j))
  = Ok {| stdout_text :=
            String.concat EmptyString
              (flat_map (fun t => [t; String "010"%char EmptyString])
                 (map (fun d => json_dumps c (JObj d)) ds));
          stderr_text := EmptyString;
          returncode := 0 |}.
Proof.
  intros Hload Hem.
  destruct (init_on_request key o u j _ Hload)
    as (s & Hinit & Hready & Hchan & Hopt & Herrs & Hwarns & Hustate).
  destruct (outputs_ready c vals s (JStr key) (JBool u) Hready)
    as (Hc & Hf & Hs).
  unfold target_script, OutputManager.bindM. rewrite Hinit.
  destruct (emit_all c vals s) as [r s2] eqn:Hrun.
  cbn [fst snd] in Hf, Hs. subst r s2.
  rewrite Hc, Hchan, Hopt, Herrs, Hwarns, Hustate, Hem. reflexivity.
Qed.

End RoundTrip.

Section RoundTripOfCall.

Variables (w : World) (self : Self) (o : bool) (j : json).
Variables (language file : string) (command : list string).

(** The exchange with a target script whose emissions write the lines of
    [ds] *)
Lemma exchange_with_target (u : bool) (vals : list json) (ds : list dict) :
  fst (get_command (host w) language file []) = Ok command ->
  Popen w command = Ok (target_script (codec w) vals) ->
  round_trips (codec w) (request_of (uuid4_hex w) o u j) ->
  emissions (codec w) (JStr (uuid4_hex w)) (JBool o) (JBool u) [] [] JNull vals
  = flat_map (fun t => [t; String "010"%char EmptyString])
      (map (fun d => json_dumps (codec w) (JObj d)) ds) ->
  Forall (fun d => round_trips (codec w) (JObj d)
                   /\ key_matches (uuid4_hex w) d = true) ds ->
  exchange w u o (Serializable j) language file = Ok (Accepted ds).
Proof.
  intros Hcmd Hpopen [Hload _] Hem Hall.
  unfold exchange. rewrite Hcmd. cbn [bind]. rewrite Hpopen. cbn [bind].
  unfold dumps_request. cbn [bind].
  change (JObj [("key", JStr (uuid4_hex w)); ("optionalOutput", JBool o);
                ("isUnique", JBool u); ("data", j)])
    with (request_of (uuid4_hex w) o u j).
  rewrite (target_script_prints (codec w) vals (uuid4_hex w) o u j ds Hload Hem).
  cbn [bind returncode stdout_text Z.eqb negb].
  destruct ds as [|d rest].
  - reflexivity.
  - rewrite lines_of_output.
    + rewrite (collect_round_trip (codec w) (uuid4_hex w) (d :: rest) [] Hall).
      reflexivity.
    + apply Forall_map. eapply Forall_impl; [|exact Hall].
      now intros a [[_ H] _].
    + discriminate.
Qed.

End RoundTripOfCall.

Section SuccessLines.

Variables (key : string) (o u : bool).

Lemma success_dicts_are_lines (vals : list json) :
  forallb is_ResponseLine (map (success_dict key o u) vals) = true.
Proof. induction vals as [|v rest IH]; [reflexivity | exact IH]. Qed.

Lemma success_dicts_data (vals : list json) :
  map line_data (map (success_dict key o u) vals) = vals.
Proof.
  induction vals as [|v rest IH]; [reflexivity|].
  cbn [map]. rewrite IH. reflexivity.
Qed.

Lemma success_dicts_status (vals : list json) :
  existsb line_failed (map (success_dict key o u) vals) = false.
Proof. induction vals as [|v rest IH]; [reflexivity | exact IH]. Qed.

Lemma success_dicts_errors (vals : list json) :
  flat_map line_errors (map (success_dict key o u) vals) = [].
Proof. induction vals as [|v rest IH]; [reflexivity | exact IH]. Qed.

Lemma success_dict_key (v : json) :
  key_matches key (success_dict key o u v) = true.
Proof.
  unfold key_matches, success_dict, dict_get. cbn [dict_find String.eqb].
  cbn. now rewrite String.eqb_refl.
Qed.

End SuccessLines.

(** X19. Caller and callee together, without a bound on the emissions. A
    call with [isUnique=False] to a target script that calls [init] and
    then emits the values [vals] gets them back: the status is true, [data]
    is the list of the values in the order of the emissions, and there is no
    error and no warning. With no emission at all the response is the one
    of a missing output. (The codec is assumed to read back the request and
    the lines it writes, each on one line.) *)
Theorem X19_round_trip_without_bound (w : World) (self : Self) (o : bool)
    (j : json) (language file : string) (command : list string)
    (vals : list json) :
  fst (get_command (host w) language file []) = Ok command ->
  Popen w command = Ok (target_script (codec w) vals) ->
  round_trips (codec w) (request_of (uuid4_hex w) o false j) ->
  (forall v, In v vals ->
     round_trips (codec w) (JObj (success_dict (uuid4_hex w) o false v))) ->
  self_response (request w self false o (Serializable j) language file) =
    Some (match vals with
          | [] =>
              if o then
                {| request_status := None; data := JNull; optionalOutput := true;
                   isUnique := JBool false;
                   warnings := [warning_optional_no_output]; errors := [] |}
              else
                {| request_status := Some false; data := JNull;
                   optionalOutput := false; isUnique := JBool false;
                   warnings := []; errors := [JStr error_no_output] |}
          | _ :: _ =>
              {| request_status := Some true; data := JArr vals;
                 optionalOutput := o; isUnique := JBool false;
                 warnings := []; errors := [] |}
          end).
Proof.
  intros Hcmd Hpopen Hreq Hlines.
  assert (Hx : exchange w false o (Serializable j) language file
               = Ok (Accepted (map (success_dict (uuid4_hex w) o false) vals))).
  { apply (exchange_with_target w o j language file command false vals);
      try assumption.
    - rewrite emissions_unbounded by reflexivity.
      rewrite map_map, flat_map_of_map. reflexivity.
    - apply Forall_map. apply Forall_forall. intros v Hv.
      split; [now apply Hlines | apply success_dict_key]. }
  destruct vals as [|v rest].
  - unfold request.
    rewrite (request_by_exchange w self false o (Serializable j) language file _ Hx).
    unfold aggregate. cbn [map]. destruct o; reflexivity.
  - cbn [map] in Hx.
    rewrite (request_lines w self false o (Serializable j) language file _ _ Hx)
      by apply (success_dicts_are_lines (uuid4_hex w) o false (v :: rest)).
    unfold aggregate_of.
    change (truthy (line_isUnique (success_dict (uuid4_hex w) o false v)))
      with false.
    cbv iota.
    change (success_dict (uuid4_hex w) o false v
              :: map (success_dict (uuid4_hex w) o false) rest)
      with (map (success_dict (uuid4_hex w) o false) (v :: rest)).
    rewrite success_dicts_status, success_dicts_data, success_dicts_errors.
    reflexivity.
Qed.

(** X20. Caller and callee together, under uniqueness. A call with
    [isUnique=True] to a target script that calls [init] and emits the one
    value [v] gets it back: the status is true, [data] is [v] itself, and
    there is no error and no warning. *)
Theorem X20_round_trip_unique (w : World) (self : Self) (o : bool)
    (j : json) (language file : string) (command : list string) (v : json) :
  fst (get_command (host w) language file []) = Ok command ->
  Popen w command = Ok (target_script (codec w) [v]) ->
  round_trips (codec w) (request_of (uuid4_hex w) o true j) ->
  round_trips (codec w) (JObj (success_dict (uuid4_hex w) o true v)) ->
  self_response (request w self true o (Serializable j) language file) =
    Some {| request_status := Some true; data := v;
            optionalOutput := o; isUnique := JBool true;
            warnings := []; errors := [] |}.
Proof.
  intros Hcmd Hpopen Hreq Hline.
  assert (Hx : exchange w true o (Serializable j) language file
               = Ok (Accepted [success_dict (uuid4_hex w) o true v])).
  { apply (exchange_with_target w o j language file command true [v]);
      try assumption.
    - reflexivity.
    - constructor; [|constructor].
      split; [assumption | apply success_dict_key]. }
  rewrite (request_lines w self true o (Serializable j) language file _ _ Hx)
    by reflexivity.
  reflexivity.
Qed.

Lemma X19_round_trip_without_bound_witness :
  let documents :=
    [request_of Scenario.key true false JNull;
     JObj (success_dict Scenario.key true false (JInt 1));
     JObj (success_dict Scenario.key true false (JInt 2));
     JObj (success_dict Scenario.key true false (JInt 3))] in
  self_response
    (request (served [JInt 1; JInt 2; JInt 3] documents) __init__ false true
       (Serializable JNull) "python" Scenario.script) =
    Some {| request_status := Some true; data := JArr [JInt 1; JInt 2; JInt 3];
            optionalOutput := true; isUnique := JBool false;
            warnings := []; errors := [] |}.
Proof.
  refine (X19_round_trip_without_bound
            (served [JInt 1; JInt 2; JInt 3]
               [request_of Scenario.key true false JNull;
                JObj (success_dict Scenario.key true false (JInt 1));
                JObj (success_dict Scenario.key true false (JInt 2));
                JObj (success_dict Scenario.key true false (JInt 3))])
            __init__ true JNull "python" Scenario.script
            ["python"; Scenario.script] [JInt 1; JInt 2; JInt 3]
            eq_refl eq_refl (conj eq_refl eq_refl) _).
  intros v [<-|[<-|[<-|[]]]]; split; reflexivity.
Defined.

Lemma X20_round_trip_unique_witness :
  let documents :=
    [request_of Scenario.key true true (JObj [("n", JInt 2)]);
     JObj (success_dict Scenario.key true true (JInt 4))] in
  self_response
    (request (served [JInt 4] documents) __init__ true true
       (Serializable (JObj [("n", JInt 2)])) "python" Scenario.script) =
    Some {| request_status := Some true; data := JInt 4;
            optionalOutput := true; isUnique := JBool true;
            warnings := []; errors := [] |}.
Proof.
  exact (X20_round_trip_unique
           (served [JInt 4]
              [request_of Scenario.key true true (JObj [("n", JInt 2)]);
               JObj (success_dict Scenario.key true true (JInt 4))])
           __init__ true (JObj [("n", JInt 2)]) "python" Scenario.script
           ["python"; Scenario.script] (JInt 4)
           eq_refl eq_refl (conj eq_refl eq_refl) (conj eq_refl eq_refl)).
Defined.

(** X21. Caller and callee together, with one emission too many. A call
    with [isUnique=True] to a target script that emits two values gets
    neither: the status is false, [data] is null, and the errors are the one
    the callee wrote for the emission out of bounds, then the one of the
    caller that counts two outputs for one expected. *)
Theorem X21_round_trip_second_emission (w : World) (self : Self) (o : bool)
    (j : json) (language file : string) (command : list string)
    (v1 v2 : json) :
  fst (get_command (host w) language file []) = Ok command ->
  Popen w command = Ok (target_script (codec w) [v1; v2]) ->
  round_trips (codec w) (request_of (uuid4_hex w) o true j) ->
  round_trips (codec w) (JObj (success_dict (uuid4_hex w) o true v1)) ->
  round_trips (codec w)
    (response_of (JStr (uuid4_hex w)) (JBool false) v2 (JBool o) (JBool true)
       [error_out_of_bound (codec w) (JBool true)] []) ->
  self_response (request w self true o (Serializable j) language file) =
    Some {| request_status := Some false; data := JNull;
            optionalOutput := o; isUnique := JBool true;
            warnings := [];
            errors := [JStr (error_out_of_bound (codec w) (JBool true));
                       JStr (error_count 2)] |}.
Proof.
  intros Hcmd Hpopen Hreq Hfirst Hsecond.
  unfold response_of in Hsecond.
  match type of Hsecond with
  | round_trips _ (JObj ?d2) =>
      assert (Hx : exchange w true o (Serializable j) language file
                   = Ok (Accepted [success_dict (uuid4_hex w) o true v1; d2]))
  end.
  { apply (exchange_with_target w o j language file command true [v1; v2]);
      try assumption.
    - reflexivity.
    - constructor; [|constructor; [|constructor]].
      + split; [assumption | apply success_dict_key].
      + split; [assumption|].
        unfold key_matches, dict_get. cbn [dict_find String.eqb]. cbn.
        now rewrite String.eqb_refl. }
  rewrite (request_lines w self true o (Serializable j) language file _ _ Hx)
    by reflexivity.
  reflexivity.
Qed.

Lemma X21_round_trip_second_emission_witness :
  let documents :=
    [request_of Scenario.key true true JNull;
     JObj (success_dict Scenario.key true true (JInt 1));
     response_of (JStr Scenario.key) (JBool false) (JInt 2) (JBool true)
       (JBool true) ["Error: outputs out of bound (isUnique: True)."] []] in
  self_response
    (request (served [JInt 1; JInt 2] documents) __init__ true true
       (Serializable JNull) "python" Scenario.script) =
    Some {| request_status := Some false; data := JNull;
            optionalOutput := true; isUnique := JBool true;
            warnings := [];
            errors := [JStr "Error: outputs out of bound (isUnique: True).";
                       JStr "Error: Expected 1 output (isUnique=True) but received 2."] |}.
Proof.
  exact (X21_round_trip_second_emission
           (served [JInt 1; JInt 2]
              [request_of Scenario.key true true JNull;
               JObj (success_dict Scenario.key true true (JInt 1));
               response_of (JStr Scenario.key) (JBool false) (JInt 2) (JBool true)
                 (JBool true) ["Error: outputs out of bound (isUnique: True)."] []])
           __init__ true JNull "python" Scenario.script
           ["python"; Scenario.script] (JInt 1) (JInt 2)
           eq_refl eq_refl (conj eq_refl eq_refl) (conj eq_refl eq_refl)
           (conj eq_refl eq_refl)).
Defined.

(** X22. A request without the entry [key] is accepted by [init], but the
    first emission then raises the [KeyError] of that entry while it builds
    its line, and writes nothing. *)
Theorem X22_request_without_key (c : Codec) (s : OutputManager.State)
    (val : json) (d : dict) :
  OutputManager.request s = JObj d ->
  d <> [] ->
  dict_find d "key" = None ->
  truthy (OutputManager.unique_state s) = false ->
  fst (OutputManager.output c val s) = Raise (Exn KeyError "'key'")
  /\ OutputManager.channel (snd (OutputManager.output c val s))
     = OutputManager.channel s.
Proof.
  destruct s as [saved txt req dat status opt ustate ierr errs0 warns out inp chan].
  cbn [OutputManager.request OutputManager.unique_state OutputManager.channel].
  intros -> Hne Hkey Hustate.
  assert (Htruthy : truthy (JObj d) = true) by (destruct d; [contradiction|reflexivity]).
  assert (Hget : getitem_str (JObj d) "key" = Raise (Exn KeyError "'key'"))
    by (unfold getitem_str, dict_getitem; now rewrite Hkey).
  unfold OutputManager.output, OutputManager.write, OutputManager.response_line,
    OutputManager.restore_stdout, OutputManager.stdout_write, OutputManager.modify,
    OutputManager.lift, OutputManager.bindM, OutputManager.get, OutputManager.ret.
  cbn -[truthy getitem_str app]. rewrite Htruthy, Hustate.
  cbn -[truthy getitem_str app].
  destruct saved as [[|]|];
    repeat (cbn -[truthy getitem_str app]; rewrite ?Htruthy, ?Hget);
    split; reflexivity.
Qed.

Lemma X22_request_without_key_witness :
  let document := JObj [("data", JInt 1); ("optionalOutput", JBool true)] in
  let c := Fixture.codec_of [document] in
  let s := snd (OutputManager.init c
                  (OutputManager.class_definition (Fixture.dumps document))) in
  fst (OutputManager.init c
         (OutputManager.class_definition (Fixture.dumps document))) = Ok tt
  /\ fst (OutputManager.output c (JInt 5) s) = Raise (Exn KeyError "'key'")
  /\ OutputManager.channel (snd (OutputManager.output c (JInt 5) s))
     = OutputManager.channel s.
Proof.
  split; [reflexivity|].
  exact (X22_request_without_key
           (Fixture.codec_of [JObj [("data", JInt 1); ("optionalOutput", JBool true)]])
           (snd (OutputManager.init
                   (Fixture.codec_of
                      [JObj [("data", JInt 1); ("optionalOutput", JBool true)]])
                   (OutputManager.class_definition
                      (Fixture.dumps
                         (JObj [("data", JInt 1); ("optionalOutput", JBool true)])))))
           (JInt 5) [("data", JInt 1); ("optionalOutput", JBool true)]
           eq_refl ltac:(discriminate) eq_refl eq_refl).
Defined.

(** X23. The report of the not-initialized fault leaves [sys.stdout] bound
    to the real stream: unlike after an emission, what the target prints
    after the report does reach the output channel. *)
Theorem X23_stdout_open_after_fault (c : Codec) (s : OutputManager.State)
    (val : json) (text : string) :
  not_initialized s = true ->
  let s1 := snd (OutputManager.output c val s) in
  OutputManager.sys_stdout s1 = OutputManager.RealStdout
  /\ OutputManager.channel (snd (OutputManager.stdout_write text s1))
     = (OutputManager.channel s1 ++ [text])%list.
Proof.
  intros Hs. rewrite (output_reports_fault c s val Hs). split; reflexivity.
Qed.

Lemma X23_stdout_open_after_fault_witness :
  let s1 :=
    snd (OutputManager.output (Fixture.codec_of []) (JInt 5)
           (OutputManager.class_definition EmptyString)) in
  OutputManager.sys_stdout s1 = OutputManager.RealStdout
  /\ OutputManager.channel (snd (OutputManager.stdout_write "debug" s1))
     = (OutputManager.channel s1 ++ ["debug"])%list.
Proof.
  exact (X23_stdout_open_after_fault (Fixture.codec_of [])
           (OutputManager.class_definition EmptyString) (JInt 5) "debug" eq_refl).
Defined.

(** * The failures of a call *)

Section CallFails.

Variables (w : World) (u o : bool) (d : pyobj) (language file : string).






(** What the aggregation needs of the dictionaries to go through *)






End CallFails.

Section CallFailsMore.

Variables (w : World) (u o : bool) (d : pyobj) (language file : string).




End CallFailsMore.



(** Failures of each kind are met by some call. *)
Example call_failures_taken :
  call_fails Scenario.silent true true (Serializable JNull) "cobol" Scenario.script
    (Some (Exn ValueError "Unsupported language: cobol"))
  /\ call_fails Scenario.no_interpreter true true (Serializable JNull)
       "python" Scenario.script
       (Some (Exn FileNotFoundError
                "[Errno 2] No such file or directory: 'python'"))
  /\ call_fails Scenario.silent true true (Unserializable "set")
       "python" Scenario.script
       (Some (Exn TypeError "Object of type set is not JSON serializable"))
  /\ call_fails Scenario.crashed true true (Serializable JNull)
       "python" Scenario.script None
  /\ call_fails Scenario.empty_dict true true (Serializable JNull)
       "python" Scenario.script None
  /\ call_fails Scenario.silent true false (Serializable JNull)
       "python" Scenario.script None
  /\ call_fails Scenario.two_unique true true (Serializable JNull)
       "python" Scenario.script None.
Proof.
  repeat split.
  - apply Resolver_raises. reflexivity.
  - eapply Popen_raises; reflexivity.
  - eapply Dumps_raises; reflexivity.
  - eapply Exit_not_zero.
    + eexists _, _, _. split; [repeat split|]; reflexivity.
    + vm_compute. discriminate.
  - eapply (Lines_unreadable _ _ _ _ _ _ [] []).
    + eexists. split; [eexists _, _, _; split; [repeat split|]; reflexivity|].
      split; reflexivity.
    + left. reflexivity.
  - apply Output_missing; [|reflexivity].
    eexists. split; [eexists _, _, _; split; [repeat split|]; reflexivity|].
    split; reflexivity.
  - eapply (Count_mismatch _ _ _ _ _ _
              (Scenario.emitted_dict (JInt 1) true)
              (Scenario.emitted_dict (JInt 2) true) []).
    + eexists. split; [eexists _, _, _; split; [repeat split|]; reflexivity|].
      split; reflexivity.
    + reflexivity.
    + reflexivity.
Qed.
